(** * The queue worker of the Telegram / TradingView webhook bot

    A shallow embedding of [src/worker.js]: the heartbeat recorder
    ([updateWorkerStatus]), the screenshot acquirer ([screenshot]), the
    per-cycle dispatch loop ([processQueue]) and the worker life cycle
    ([init]), followed by the properties of the specification that concern
    them.

    Conventions of the embedding.
    - JavaScript strings are [string]; a nullable column or an [undefined]
      value is an [option].
    - The two tables of the data base are lists of rows held in the state;
      [Setting.update] and [Message.update] rewrite every matching row.  The
      store itself does not fail.
    - The browser, the messaging provider and the wall clock are outside the
      program: they are oracles of the environment, indexed by a counter of
      the external calls made so far, so that each call may succeed or raise
      independently of the others.
    - An asynchronous function is a computation in the monad [M]: it reads the
      environment, transforms the state, emits the events it performs in
      order, and returns a value or raises.  What was done before a [throw]
      stays done.

    The file has four parts: the embedding; the vocabulary in which traces
    are read and the properties stated, with the words of the specification
    and some sample worlds; the lemmas on each function; and the properties
    themselves, each with a run that exercises it. *)

From Stdlib Require Import String Ascii List ZArith Lia Bool Arith.
Import ListNotations.
Local Open Scope string_scope.
Local Open Scope list_scope.

(** Concatenation of strings, as in a template literal. *)
Notation "a +++ b" := (String.append a b) (at level 60, right associativity).

(* ================================================================== *)
(** ** JavaScript strings *)
(* ================================================================== *)

Module JS.

(** [s.split(sep)] for a separator of one character: the pieces between
    the occurrences of [sep], in order; always at least one piece. *)
Fixpoint split (sep : ascii) (s : string) : list string :=
  match s with
  | EmptyString => [EmptyString]
  | String c rest =>
      if Ascii.eqb c sep then EmptyString :: split sep rest
      else match split sep rest with
           | [] => [String c EmptyString]
           | w :: ws => String c w :: ws
           end
  end.

(** Truthiness of a value that is a string or [undefined]/[null]. *)
Definition truthy (v : option string) : bool :=
  match v with
  | Some EmptyString => false
  | Some _ => true
  | None => false
  end.

(** [a || b] on such values. *)
Definition or (a b : option string) : option string :=
  if truthy a then a else b.

(** Does the character occur in the string? *)
Fixpoint contains (c : ascii) (s : string) : bool :=
  match s with
  | EmptyString => false
  | String d rest => Ascii.eqb d c || contains c rest
  end.

End JS.

Definition colon : ascii := ":"%char.
Definition comma : ascii := ","%char.
Definition space : ascii := " "%char.

(* ================================================================== *)
(** ** Data model *)
(* ================================================================== *)

(** A thrown value.  [TypeError] is what the language raises on a property
    access or method call on [null]; an error raised by the browser or by the
    messaging provider is kept as its [JSON.stringify] image. *)
Inductive exn : Type :=
| TypeError (msg : string)
| Thrown (json : string).

(** [JSON.stringify(err)]: an [Error] object of the language has no
    enumerable property of its own. *)
Definition JSON_stringify (e : exn) : string :=
  match e with
  | TypeError _ => "{}"
  | Thrown json => json
  end.

(** Modelled from the spec: the model classes of [./models] are not among
    the sources.  The status of a queue message is one of
    [pending | success | failed]. *)
Inductive status : Type := pending | success | failed.

Definition status_eqb (a b : status) : bool :=
  match a, b with
  | pending, pending | success, success | failed, failed => true
  | _, _ => false
  end.

(** Modelled from the spec: a row of the settings table has a [type], a
    [data] payload and an [enabled] flag.  The payload may be [null]. *)
Record Setting : Type := mkSetting {
  s_type : string;
  s_data : option string;
  s_enabled : bool
}.

(** Modelled from the spec: a row of the message queue has a unique [id],
    a free-text [data], an optional [timeframe], the comma-separated
    [channels], a [status] and a [log] that is [null] until first written. *)
Record Message : Type := mkMessage {
  m_id : Z;
  m_data : string;
  m_timeframe : option string;
  m_channels : string;
  m_status : status;
  m_log : option string
}.

(** The methods of the puppeteer page that the worker calls.  The three
    [page.evaluate] calls of [screenshot] and the one of [init] are told
    apart by what they compute. *)
Inductive page_op : Type -> Type :=
| Goto (url : string) : page_op unit
| WaitForSelector (selector : string) : page_op unit
| Click (selector : string) : page_op unit
| TypeText (selector : string) (text : option string) : page_op unit
| EvalChartHref : page_op string
| EvalClickTimeframe (timeframe : option string) : page_op unit
| EvalImageUrl : page_op string
| RaceNavigationOrError : page_op unit
| EvalLoginFailed : page_op bool.

(** The two methods of the Telegram client that the worker calls. *)
Inductive tg_call : Type :=
| SendPhoto (channel : string) (image : option string) (caption : string)
| SendMessage (channel : string) (text : string).

(** The fields of a [Message.update]. *)
Record update_fields : Type := mkFields {
  u_status : option status;
  u_log : string
}.

(** The lines written by [console.log] (the leading [new Date()] is left
    out). *)
Inductive console_line : Type :=
| LogPendingMessages (n : nat)
| LogProcessingMessage (id : Z)
| LogScreenshotSuccess (symbol : string)
| LogScreenshotFailed (symbol : string)
| LogDispatchSuccess (channel : string)
| LogDispatchFailed (err : exn)
| LogWorkerStarted
| LogBrowserOpened
| LogLoginSuccess (data : option string)
| LogLoginInvalid (data : option string)
| LogLoginFailed (err : exn)
| LogCheckingQueue
| LogProcessQueueFailed (err : exn)
| LogRecheckIn (seconds : nat).

(** What a computation does, in order. *)
Inductive event : Type :=
| EvTouch (now : string)
| EvFindOrCreateWorker (now : string)
| EvFindOne (type : string)
| EvFindAllPending
| EvMessageUpdate (fields : update_fields) (id : Z)
| EvScreenshot (symbol : string) (timeframe : option string)
| EvPage {A : Type} (op : page_op A)
| EvTelegram (call : tg_call) (outcome : exn + string)
| EvConsole (line : console_line)
| EvSleep (ms : nat).

(** The environment: the outcome of the [n]-th external call, and the
    value that the schema of [./models], which is not among the sources,
    gives to [enabled] in a row created without it. *)
Record Env : Type := mkEnv {
  browser : forall A : Type, nat -> page_op A -> exn + A;
  telegram : nat -> option string -> tg_call -> exn + string;
  clock : nat -> string;
  default_enabled : bool
}.

(** The state: the two tables and the number of external calls so far. *)
Record State : Type := mkState {
  settings : list Setting;
  messages : list Message;
  tick : nat
}.

(* ================================================================== *)
(** ** The monad of asynchronous functions *)
(* ================================================================== *)

Inductive result (A : Type) : Type :=
| Ok (a : A)
| Throw (e : exn).
Arguments Ok {A} a.
Arguments Throw {A} e.

Definition M (A : Type) : Type := Env -> State -> result A * State * list event.

Definition ret {A} (a : A) : M A := fun _ st => (Ok a, st, []).

Definition throw {A} (e : exn) : M A := fun _ st => (Throw e, st, []).

Definition bind {A B} (m : M A) (k : A -> M B) : M B :=
  fun env st =>
    match m env st with
    | (Ok a, st1, ev1) =>
        match k a env st1 with
        | (r, st2, ev2) => (r, st2, ev1 ++ ev2)
        end
    | (Throw e, st1, ev1) => (Throw e, st1, ev1)
    end.

(** [try { m } catch (err) { handler err }] *)
Definition try_catch {A} (m : M A) (handler : exn -> M A) : M A :=
  fun env st =>
    match m env st with
    | (Ok a, st1, ev1) => (Ok a, st1, ev1)
    | (Throw e, st1, ev1) =>
        match handler e env st1 with
        | (r, st2, ev2) => (r, st2, ev1 ++ ev2)
        end
    end.

Declare Scope worker_scope.
Delimit Scope worker_scope with worker.
Notation "x <- m ;; k" := (bind m (fun x => k))
  (at level 61, m at next level, right associativity) : worker_scope.
Notation "m ;; k" := (bind m (fun _ => k))
  (at level 61, right associativity) : worker_scope.
Local Open Scope worker_scope.

Definition emit (e : event) : M unit := fun _ st => (Ok tt, st, [e]).

Definition get_state : M State := fun _ st => (Ok st, st, []).

Definition next_tick : M nat :=
  fun _ st => (Ok (tick st), mkState (settings st) (messages st) (S (tick st)), []).

(** [for (let i = 0; i < xs.length; i++) { body xs[i] }] *)
Fixpoint for_each {A} (xs : list A) (body : A -> M unit) : M unit :=
  match xs with
  | [] => ret tt
  | x :: rest => body x ;; for_each rest body
  end.

(** [obj.field] where [obj] may be [null]. *)
Definition prop {R A} (obj : option R) (field : R -> A) (name : string) : M A :=
  match obj with
  | Some r => ret (field r)
  | None => throw (TypeError ("Cannot read property '" +++ name +++ "' of null"))
  end.

(** [str.split(sep)] where [str] may be [null]. *)
Definition method_split (sep : ascii) (str : option string) : M (list string) :=
  match str with
  | Some s => ret (JS.split sep s)
  | None => throw (TypeError "Cannot read property 'split' of null")
  end.

Definition console_log (line : console_line) : M unit := emit (EvConsole line).

(** [new Date().toISOString()] *)
Definition now : M string :=
  fun env st =>
    (Ok (clock env (tick st)), mkState (settings st) (messages st) (S (tick st)), []).

(** [new Promise((resolve) => setTimeout(resolve, ms))] *)
Definition sleep (ms : nat) : M unit := emit (EvSleep ms).

(* ================================================================== *)
(** ** The store *)
(* ================================================================== *)

(** [Setting.findOne({ where: { type } })] *)
Definition Setting_findOne (type : string) : M (option Setting) :=
  emit (EvFindOne type) ;;
  st <- get_state ;;
  ret (find (fun s => String.eqb (s_type s) type) (settings st)).

(** [Message.findAll({ where: { status: "pending" } })] *)
Definition Message_findAll_pending : M (list Message) :=
  emit EvFindAllPending ;;
  st <- get_state ;;
  ret (filter (fun m => status_eqb (m_status m) pending) (messages st)).

Definition apply_fields (f : update_fields) (id : Z) (m : Message) : Message :=
  if Z.eqb (m_id m) id then
    mkMessage (m_id m) (m_data m) (m_timeframe m) (m_channels m)
      (match u_status f with Some s => s | None => m_status m end)
      (Some (u_log f))
  else m.

(** [Message.update(fields, { where: { id } })] *)
Definition Message_update (f : update_fields) (id : Z) : M unit :=
  fun _ st =>
    (Ok tt,
     mkState (settings st) (map (apply_fields f id) (messages st)) (tick st),
     [EvMessageUpdate f id]).

Definition set_worker_data (ts : string) (s : Setting) : Setting :=
  if String.eqb (s_type s) "worker"
  then mkSetting (s_type s) (Some ts) (s_enabled s)
  else s.

(** [Setting.update({ data }, { where: { type: "worker" } })] *)
Definition Setting_update_worker (ts : string) : M unit :=
  fun _ st =>
    (Ok tt,
     mkState (map (set_worker_data ts) (settings st)) (messages st) (tick st),
     [EvTouch ts]).

(** [Setting.findOrCreate({ where: { type: "worker" }, defaults: { data } })] *)
Definition Setting_findOrCreate_worker (ts : string) : M unit :=
  fun env st =>
    (Ok tt,
     match find (fun s => String.eqb (s_type s) "worker") (settings st) with
     | Some _ => st
     | None =>
         mkState (settings st ++ [mkSetting "worker" (Some ts) (default_enabled env)])
           (messages st) (tick st)
     end,
     [EvFindOrCreateWorker ts]).

(* ================================================================== *)
(** ** worker.js *)
(* ================================================================== *)

(** [updateWorkerStatus(initial = false)] *)
Definition updateWorkerStatus (initial : bool) : M unit :=
  if initial then
    ts <- now ;;
    Setting_findOrCreate_worker ts
  else
    ts <- now ;;
    Setting_update_worker ts.

(** A call [page.op(...)]: the environment decides its outcome. *)
Definition page {A} (op : page_op A) : M A :=
  fun env st =>
    (match browser env A (tick st) op with
     | inl e => Throw e
     | inr a => Ok a
     end,
     mkState (settings st) (messages st) (S (tick st)),
     [EvPage op]).

Definition dquote : string := String (ascii_of_nat 34) EmptyString.

Definition sel_chart_link : string :=
  "a[href*=" +++ dquote +++ "/chart/?" +++ dquote +++ "]".
Definition sel_image_url : string :=
  "[value*=" +++ dquote +++ "https://www.tradingview.com/x/" +++ dquote +++ "]".
Definition sel_username : string :=
  "[name=" +++ dquote +++ "username" +++ dquote +++ "]".
Definition sel_password : string :=
  "[name=" +++ dquote +++ "password" +++ dquote +++ "]".
Definition sel_submit : string :=
  "[type=" +++ dquote +++ "submit" +++ dquote +++ "]".

(** The address computed at the head of [screenshot] (lines 33-39). *)
Definition screenshot_url (symbol : string) : string :=
  let url := "https://www.tradingview.com/symbols/" +++ symbol +++ "/" in
  let parts := JS.split colon symbol in
  let exchange := nth_error parts 0 in
  let stock := nth_error parts 1 in
  match exchange, stock with
  | Some e, Some s =>
      if JS.truthy exchange && JS.truthy stock
      then "https://www.tradingview.com/symbols/" +++ s +++ "/?exchange=" +++ e
      else url
  | _, _ => url
  end.

(** [screenshot(page, { symbol, timeframe })].  The first event records the
    call and its arguments. *)
Definition screenshot (symbol : string) (timeframe : option string) : M string :=
  emit (EvScreenshot symbol timeframe) ;;
  let url := screenshot_url symbol in
  page (Goto url) ;;
  page (WaitForSelector sel_chart_link) ;;
  graph_url <- page EvalChartHref ;;
  page (Goto graph_url) ;;
  page (WaitForSelector ".menu-1fA401bY") ;;
  page (Click ".menu-1fA401bY") ;;
  page (WaitForSelector ".item-2xPVYue0") ;;
  page (EvalClickTimeframe timeframe) ;;
  page (WaitForSelector "[class='chart-loading-screen']") ;;
  page (Click "#header-toolbar-screenshot") ;;
  page (WaitForSelector sel_image_url) ;;
  image_url <- page EvalImageUrl ;;
  ret image_url.

(** [bot.sendPhoto(...)] and [bot.sendMessage(...)], [bot] being the client
    built from the token. *)
Definition bot_send (bot : option string) (call : tg_call) : M string :=
  fun env st =>
    let outcome := telegram env (tick st) bot call in
    (match outcome with
     | inl e => Throw e
     | inr response => Ok response
     end,
     mkState (settings st) (messages st) (S (tick st)),
     [EvTelegram call outcome]).

Definition placeholder_image : string :=
  "https://miro.medium.com/max/978/1*pUEZd8z__1p-7ICIO1NZFA.png".

(** The first half of the body of the loop over the channels (lines
    112-133): the image to send, [null] when screenshots are disabled. *)
Definition acquire_image (screenshot_settings : option Setting)
    (id : Z) (timeframe : option string) (symbol : string) : M (option string) :=
  enabled <- prop screenshot_settings s_enabled "enabled" ;;
  if enabled : bool then
    image <-
      try_catch
        (default <- prop screenshot_settings s_data "data" ;;
         image <- screenshot symbol (JS.or timeframe default) ;;
         console_log (LogScreenshotSuccess symbol) ;;
         ret (Some image))
        (fun err =>
           Message_update (mkFields None (JSON_stringify err)) id ;;
           console_log (LogScreenshotFailed symbol) ;;
           ret (Some placeholder_image)) ;;
    updateWorkerStatus false ;;
    ret image
  else ret None.

(** The second half (lines 135-159): the send and the record of its
    outcome. *)
Definition dispatch (bot : option string) (screenshot_settings : option Setting)
    (id : Z) (data : string) (channel : string) (image : option string) : M unit :=
  try_catch
    (enabled <- prop screenshot_settings s_enabled "enabled" ;;
     response <-
       (if enabled : bool
        then bot_send bot (SendPhoto channel image data)
        else bot_send bot (SendMessage channel data)) ;;
     Message_update (mkFields (Some success) response) id ;;
     console_log (LogDispatchSuccess channel))
    (fun err =>
       Message_update (mkFields (Some failed) (JSON_stringify err)) id ;;
       console_log (LogDispatchFailed err)).

(** The body of the loop over the channels (lines 111-162). *)
Definition process_channel (bot : option string) (screenshot_settings : option Setting)
    (id : Z) (data : string) (timeframe : option string) (symbol : string)
    (channel : string) : M unit :=
  image <- acquire_image screenshot_settings id timeframe symbol ;;
  dispatch bot screenshot_settings id data channel image ;;
  updateWorkerStatus false.

(** [data.split(" ")[0]] *)
Definition symbol_of (data : string) : string :=
  match JS.split space data with
  | [] => EmptyString
  | first :: _ => first
  end.

(** The body of the loop over the messages (lines 100-163). *)
Definition process_message (bot : option string) (screenshot_settings : option Setting)
    (message : Message) : M unit :=
  let id := m_id message in
  let data := m_data message in
  let timeframe := m_timeframe message in
  let channels := JS.split comma (m_channels message) in
  let symbol := symbol_of data in
  console_log (LogProcessingMessage id) ;;
  for_each channels
    (process_channel bot screenshot_settings id data timeframe symbol).

(** [processQueue(page)] *)
Definition processQueue : M unit :=
  updateWorkerStatus false ;;
  bot_settings <- Setting_findOne "telegram:bot" ;;
  screenshot_settings <- Setting_findOne "tradingview:screenshot" ;;
  pending_messages <- Message_findAll_pending ;;
  console_log (LogPendingMessages (length pending_messages)) ;;
  bot <- prop bot_settings s_data "data" ;;
  for_each pending_messages (process_message bot screenshot_settings).

(** The login block of [init] (lines 198-232). *)
Definition login : M unit :=
  credentials_settings <- Setting_findOne "tradingview:credentials" ;;
  enabled <- prop credentials_settings s_enabled "enabled" ;;
  if enabled : bool then
    try_catch
      (data <- prop credentials_settings s_data "data" ;;
       parts <- method_split colon data ;;
       let email := nth_error parts 0 in
       let password := nth_error parts 1 in
       page (Goto "https://www.tradingview.com/#signin") ;;
       page (Click "span.js-show-email") ;;
       page (TypeText sel_username email) ;;
       page (TypeText sel_password password) ;;
       page (Click sel_submit) ;;
       page RaceNavigationOrError ;;
       failed <- page EvalLoginFailed ;;
       if negb failed
       then console_log (LogLoginSuccess data)
       else console_log (LogLoginInvalid data))
      (fun err => console_log (LogLoginFailed err))
  else ret tt.

(** One turn of the [while (true)] of [init] (lines 238-252). *)
Definition loop_iteration : M unit :=
  console_log LogCheckingQueue ;;
  try_catch processQueue
    (fun err => console_log (LogProcessQueueFailed err)) ;;
  let wait := 1 in
  console_log (LogRecheckIn wait) ;;
  sleep (wait * 1000).

(** The first [n] turns of the [while (true)]; the loop has no exit of its
    own, so it stops before [n] turns only when a turn raises. *)
Fixpoint worker_loop (n : nat) : M unit :=
  match n with
  | O => ret tt
  | S k => loop_iteration ;; worker_loop k
  end.

(** [init()], from the state left by [sequelize.sync()] and [defaultRows()]
    and with the browser launched, up to the [n]-th turn of its loop. *)
Definition init (n : nat) : M unit :=
  console_log LogWorkerStarted ;;
  updateWorkerStatus true ;;
  console_log LogBrowserOpened ;;
  login ;;
  worker_loop n.

(* ================================================================== *)
(** ** Running a computation, reading a trace *)
(* ================================================================== *)

Definition outcome_of {A} (x : result A * State * list event) : result A := fst (fst x).
Definition state_of {A} (x : result A * State * list event) : State := snd (fst x).
Definition events_of {A} (x : result A * State * list event) : list event := snd x.

(** The row of the settings table that [Setting.findOne] returns. *)
Definition lookup_setting (type : string) (st : State) : option Setting :=
  find (fun s => String.eqb (s_type s) type) (settings st).

(** The rows that [Message.findAll] returns. *)
Definition pending_messages (st : State) : list Message :=
  filter (fun m => status_eqb (m_status m) pending) (messages st).

(** The channels of a message, as the loop walks them. *)
Definition channels_of (m : Message) : list string :=
  JS.split comma (m_channels m).

(** The sends of a trace, with their outcomes. *)
Fixpoint dispatches (evs : list event) : list (tg_call * (exn + string)) :=
  match evs with
  | [] => []
  | EvTelegram call o :: rest => (call, o) :: dispatches rest
  | _ :: rest => dispatches rest
  end.

(** The calls of [screenshot] in a trace, with their arguments. *)
Fixpoint screenshot_calls (evs : list event) : list (string * option string) :=
  match evs with
  | [] => []
  | EvScreenshot symbol timeframe :: rest => (symbol, timeframe) :: screenshot_calls rest
  | _ :: rest => screenshot_calls rest
  end.

(** The updates of the message table in a trace. *)
Fixpoint message_updates (evs : list event) : list (update_fields * Z) :=
  match evs with
  | [] => []
  | EvMessageUpdate f id :: rest => (f, id) :: message_updates rest
  | _ :: rest => message_updates rest
  end.

Definition is_processing (e : event) : bool :=
  match e with
  | EvConsole (LogProcessingMessage _) => true
  | _ => false
  end.

Definition is_page_event (e : event) : bool :=
  match e with
  | EvPage _ => true
  | _ => false
  end.

(** The events up to the next turn of the loop over the messages. *)
Fixpoint until_next_message (evs : list event) : list event :=
  match evs with
  | [] => []
  | e :: rest => if is_processing e then [] else e :: until_next_message rest
  end.

(** The part of the trace of a cycle that belongs to the message [id]: what
    follows the line "Processing Message ID: id", up to the next such line. *)
Fixpoint message_events (id : Z) (evs : list event) : list event :=
  match evs with
  | [] => []
  | EvConsole (LogProcessingMessage id') :: rest =>
      if Z.eqb id' id then until_next_message rest else message_events id rest
  | _ :: rest => message_events id rest
  end.

(** What [dispatch] writes to the row for an outcome of the send. *)
Definition dispatch_fields (o : exn + string) : update_fields :=
  match o with
  | inr response => mkFields (Some success) response
  | inl err => mkFields (Some failed) (JSON_stringify err)
  end.

Definition status_of_outcome (o : exn + string) : status :=
  match o with
  | inr _ => success
  | inl _ => failed
  end.

(** The heartbeat as a monitor sees a cycle: the touches, the poll of the
    queue, the screenshot attempts and the sends, in order. *)
Inductive beat : Type := Touch | Poll | Shot | Send.

Fixpoint beats (evs : list event) : list beat :=
  match evs with
  | [] => []
  | EvTouch _ :: rest => Touch :: beats rest
  | EvFindAllPending :: rest => Poll :: beats rest
  | EvScreenshot _ _ :: rest => Shot :: beats rest
  | EvTelegram _ _ :: rest => Send :: beats rest
  | _ :: rest => beats rest
  end.

(* ------------------------------------------------------------------ *)
(** *** The words of the specification *)
(* ------------------------------------------------------------------ *)

Module Spec.

(** White space: space, tab, line feed, vertical tab, form feed, carriage
    return. *)
Definition is_whitespace (c : ascii) : bool :=
  let n := nat_of_ascii c in
  Nat.eqb n 32 || (Nat.leb 9 n && Nat.leb n 13).

Fixpoint skip_whitespace (s : string) : string :=
  match s with
  | EmptyString => EmptyString
  | String c rest => if is_whitespace c then skip_whitespace rest else s
  end.

Fixpoint take_token (s : string) : string :=
  match s with
  | EmptyString => EmptyString
  | String c rest => if is_whitespace c then EmptyString else String c (take_token rest)
  end.

Fixpoint drop_token (s : string) : string :=
  match s with
  | EmptyString => EmptyString
  | String c rest => if is_whitespace c then s else drop_token rest
  end.

(** "its first whitespace-delimited token" *)
Definition first_token (data : string) : string :=
  take_token (skip_whitespace data).

(** "the remainder is caption text" *)
Definition caption (data : string) : string :=
  skip_whitespace (drop_token (skip_whitespace data)).

End Spec.

(* ================================================================== *)
(** ** The vocabulary of the statements *)
(* ================================================================== *)

(** The state after a touch of the heartbeat. *)
Definition touch_state (env : Env) (st : State) : State :=
  mkState (map (set_worker_data (clock env (tick st))) (settings st))
    (messages st) (S (tick st)).

(** The state after a [Message.update]. *)
Definition updated (f : update_fields) (id : Z) (st : State) : State :=
  mkState (settings st) (map (apply_fields f id) (messages st)) (tick st).

(** The send that [dispatch] makes. *)
Definition dispatch_call (ss : Setting) (data channel : string)
    (image : option string) : tg_call :=
  if s_enabled ss then SendPhoto channel image data else SendMessage channel data.

Definition dispatch_line (channel : string) (o : exn + string) : console_line :=
  match o with
  | inr _ => LogDispatchSuccess channel
  | inl err => LogDispatchFailed err
  end.

(** A computation that only drives the browser. *)
Definition browser_only {A} (m : M A) : Prop :=
  forall env st,
    settings (state_of (m env st)) = settings st /\
    messages (state_of (m env st)) = messages st /\
    forallb is_page_event (events_of (m env st)) = true.

Definition quiet (evs : list event) : bool :=
  forallb (fun e => negb (is_processing e)) evs.

Definition channel_beats (ss : Setting) : list beat :=
  if s_enabled ss then [Shot; Touch; Send; Touch] else [Send; Touch].

(** The last element of a list, if any. *)
Fixpoint last_of {A} (l : list A) : option A :=
  match l with
  | [] => None
  | x :: rest => match rest with [] => Some x | _ :: _ => last_of rest end
  end.

(** The table of messages after the sends of a trace for the row [id]. *)
Definition after_dispatches (id : Z) (ds : list (tg_call * (exn + string)))
    (ms : list Message) : list Message :=
  match last_of ds with
  | None => ms
  | Some (_, o) => map (apply_fields (dispatch_fields o) id) ms
  end.

(** The send to a channel is the one [dispatch] makes: with the payload
    alone when screenshots are disabled, with an image otherwise. *)
Definition sent_to (ss : Setting) (data channel : string)
    (d : tg_call * (exn + string)) : Prop :=
  exists image,
    fst d = dispatch_call ss data channel image /\
    (image = None <-> s_enabled ss = false).

(** What a cycle leaves of a message: its sends, its calls of [screenshot]
    and its row, read from the part [seg] of the trace that belongs to it
    and from the final table [ms]. *)
Definition message_outcome (ss : Setting) (m : Message)
    (seg : list event) (ms : list Message) : Prop :=
  Forall2 (sent_to ss (m_data m)) (channels_of m) (dispatches seg) /\
  screenshot_calls seg
  = (if s_enabled ss
     then map (fun _ => (symbol_of (m_data m), JS.or (m_timeframe m) (s_data ss)))
            (channels_of m)
     else []) /\
  exists call o,
    last_of (dispatches seg) = Some (call, o) /\
    forall row, In row ms -> m_id row = m_id m ->
      m_status row = status_of_outcome o /\
      m_log row = Some (u_log (dispatch_fields o)).

(** The sends that a cycle owes: one per pending message and channel, in
    the order of the two loops. *)
Definition owed (msgs : list Message) : list (Message * string) :=
  flat_map (fun m => map (pair m) (channels_of m)) msgs.

Definition cycle_beats (ss : Setting) (msgs : list Message) : list beat :=
  concat (map (fun _ => channel_beats ss) (owed msgs)).

(** The calls of [screenshot] that a cycle owes. *)
Definition owed_screenshots (ss : Setting) (msgs : list Message)
  : list (string * option string) :=
  if s_enabled ss
  then map (fun mc => (symbol_of (m_data (fst mc)),
                       JS.or (m_timeframe (fst mc)) (s_data ss))) (owed msgs)
  else [].

Definition starts_with_processing (evs : list event) : Prop :=
  match evs with
  | [] => True
  | e :: _ => is_processing e = true
  end.

(** What every cycle does before it looks at its settings. *)
Definition cycle_prefix (env : Env) (st : State) : list event :=
  [EvTouch (clock env (tick st));
   EvFindOne "telegram:bot";
   EvFindOne "tradingview:screenshot";
   EvFindAllPending;
   EvConsole (LogPendingMessages (length (pending_messages st)))].

Definition null_data : exn := TypeError "Cannot read property 'data' of null".
Definition null_enabled : exn := TypeError "Cannot read property 'enabled' of null".

(** A completed turn of the loop: it opens with "Checking Queue" and closes
    with the announcement of the wait and the sleep. *)
Definition completed_turn (t : list event) : Prop :=
  exists body,
    t = EvConsole LogCheckingQueue
        :: body ++ [EvConsole (LogRecheckIn 1); EvSleep 1000].

(** What the loop logs when the cycle raises. *)
Definition failure_report (r : result unit) : list event :=
  match r with
  | Ok _ => []
  | Throw err => [EvConsole (LogProcessQueueFailed err)]
  end.

(** The line that closes a login attempt. *)
Definition login_report (cs : Setting) (line : console_line) : Prop :=
  line = LogLoginSuccess (s_data cs) \/
  line = LogLoginInvalid (s_data cs) \/
  exists err, line = LogLoginFailed err.

(** The three places where the specification puts a touch of the
    heartbeat. *)
Definition touch_before_poll (bs : list beat) : Prop :=
  forall pre post, bs = pre ++ Poll :: post -> In Touch pre.

(** Between a screenshot attempt and the attempt or send before it (or the
    start of the cycle), the heartbeat is touched. *)
Definition touch_before_each_screenshot (bs : list beat) : Prop :=
  forall pre post, bs = pre ++ Shot :: post ->
    exists earlier gap,
      pre = earlier ++ Touch :: gap /\ ~ In Shot gap /\ ~ In Send gap.

(** Right after a send, the heartbeat is touched. *)
Definition touch_after_each_send (bs : list beat) : Prop :=
  forall pre post, bs = pre ++ Send :: post -> exists later, post = Touch :: later.

(** A scan of the beats that checks the three at once; [fresh] tells
    whether the heartbeat was touched since the last attempt or send. *)
Fixpoint well_beaten (fresh : bool) (bs : list beat) : bool :=
  match bs with
  | [] => true
  | Touch :: rest => well_beaten true rest
  | Poll :: rest => fresh && well_beaten fresh rest
  | Shot :: rest => fresh && well_beaten false rest
  | Send :: rest =>
      match rest with
      | Touch :: _ => well_beaten false rest
      | _ => false
      end
  end.

(** Does every character of the string satisfy the test? *)
Fixpoint all_chars (p : ascii -> bool) (s : string) : bool :=
  match s with
  | EmptyString => true
  | String c rest => p c && all_chars p rest
  end.

Definition no_whitespace (s : string) : bool :=
  all_chars (fun c => negb (Spec.is_whitespace c)) s.

(* ------------------------------------------------------------------ *)
(** *** Further vocabulary: frames, steps of the browser, pieces *)
(* ------------------------------------------------------------------ *)

Definition is_worker (s : Setting) : bool := String.eqb (s_type s) "worker".

(** The rows of the settings table that are not the heartbeat. *)
Definition other_settings (st : State) : list Setting :=
  filter (fun s => negb (is_worker s)) (settings st).

(** What a producer puts in a row of the queue. *)
Definition payload (m : Message) : Z * string * option string * string :=
  (m_id m, m_data m, m_timeframe m, m_channels m).

(** Between two states of the queue: the same rows in the same order with
    the same payload, and no row back to [pending] that had left it. *)
Definition queue_kept (st st' : State) : Prop :=
  Forall2
    (fun r r' => payload r' = payload r /\
                 (m_status r' = pending -> m_status r = pending))
    (messages st) (messages st').

(** Between two states of the settings: the rows other than the heartbeat
    are the same. *)
Definition settings_kept (st st' : State) : Prop :=
  other_settings st' = other_settings st.

(** A computation keeps a relation between the state it starts from and
    the state it leaves, whatever the environment. *)
Definition keeps (R : State -> State -> Prop) {A} (m : M A) : Prop :=
  forall env st, R st (state_of (m env st)).

(** The twelve calls that [screenshot] makes on the page, in order, when
    the page gave the address [graph_url] of the chart. *)
Definition screenshot_steps (symbol : string) (timeframe : option string)
    (graph_url : string) : list event :=
  [EvPage (Goto (screenshot_url symbol));
   EvPage (WaitForSelector sel_chart_link);
   EvPage EvalChartHref;
   EvPage (Goto graph_url);
   EvPage (WaitForSelector ".menu-1fA401bY");
   EvPage (Click ".menu-1fA401bY");
   EvPage (WaitForSelector ".item-2xPVYue0");
   EvPage (EvalClickTimeframe timeframe);
   EvPage (WaitForSelector "[class='chart-loading-screen']");
   EvPage (Click "#header-toolbar-screenshot");
   EvPage (WaitForSelector sel_image_url);
   EvPage EvalImageUrl].

(** The seven calls of the login on the page, in order. *)
Definition login_steps (email password : option string) : list event :=
  [EvPage (Goto "https://www.tradingview.com/#signin");
   EvPage (Click "span.js-show-email");
   EvPage (TypeText sel_username email);
   EvPage (TypeText sel_password password);
   EvPage (Click sel_submit);
   EvPage RaceNavigationOrError;
   EvPage EvalLoginFailed].

(** The channel a send goes to. *)
Definition call_channel (call : tg_call) : string :=
  match call with
  | SendPhoto channel _ _ => channel
  | SendMessage channel _ => channel
  end.

(** The number of occurrences of a character. *)
Fixpoint count_char (c : ascii) (s : string) : nat :=
  match s with
  | EmptyString => 0
  | String d rest => (if Ascii.eqb d c then 1 else 0) + count_char c rest
  end.

(** The pieces put together again, the separator between them. *)
Fixpoint join (sep : ascii) (pieces : list string) : string :=
  match pieces with
  | [] => EmptyString
  | piece :: rest =>
      match rest with
      | [] => piece
      | _ :: _ => piece +++ String sep (join sep rest)
      end
  end.

(** What ends in the log of a row for an outcome of the send. *)
Definition log_of_outcome (o : exn + string) : string :=
  match o with
  | inr response => response
  | inl err => JSON_stringify err
  end.

(** The timeframe that [timeframe || default] gives: the one of the message
    when it has one that is not the empty string, the default otherwise. *)
Definition timeframe_asked (m : Message) (default : option string) : option string :=
  match m_timeframe m with
  | Some EmptyString => default
  | Some t => Some t
  | None => default
  end.


(** The two arguments that the login types into the form. *)
Definition email_of (data : string) : option string :=
  nth_error (JS.split colon data) 0.
Definition password_of (data : string) : option string :=
  nth_error (JS.split colon data) 1.

(** A state in which a cycle cannot get to its first send: the bot row is
    missing, or the screenshot row is missing while a message waits. *)
Definition blocked (st : State) : Prop :=
  lookup_setting "telegram:bot" st = None \/
  (lookup_setting "tradingview:screenshot" st = None /\ pending_messages st <> []).

(* ================================================================== *)
(** ** Sample worlds *)
(* ================================================================== *)

Module Sample.

Definition chart_href : string := "https://www.tradingview.com/chart/?symbol=AAPL".
Definition image_url : string := "https://www.tradingview.com/x/aBcD1234/".
Definition timestamp : string := "2021-03-01T09:30:00.000Z".

(** A browser in which every step works and no login error shows. *)
Definition page_ok (A : Type) (op : page_op A) : exn + A :=
  match op in page_op T return exn + T with
  | Goto _ => inr tt
  | WaitForSelector _ => inr tt
  | Click _ => inr tt
  | TypeText _ _ => inr tt
  | EvalChartHref => inr chart_href
  | EvalClickTimeframe _ => inr tt
  | EvalImageUrl => inr image_url
  | RaceNavigationOrError => inr tt
  | EvalLoginFailed => inr false
  end.

Definition timeout_error : exn := Thrown "{name:TimeoutError}".
Definition chat_not_found : exn := Thrown "{code:400,description:chat not found}".

Definition channel_of (call : tg_call) : string :=
  match call with
  | SendPhoto channel _ _ => channel
  | SendMessage channel _ => channel
  end.

(** Everything works. *)
Definition env_ok : Env :=
  mkEnv (fun A _ op => page_ok A op)
        (fun _ _ _ => inr "{ok:true}")
        (fun _ => timestamp) false.

(** The provider refuses the channel [down]; everything else works. *)
Definition env_channel_down (down : string) : Env :=
  mkEnv (fun A _ op => page_ok A op)
        (fun _ _ call =>
           if String.eqb (channel_of call) down
           then inl chat_not_found else inr "{ok:true}")
        (fun _ => timestamp) false.

(** Every step in the browser times out; the provider works. *)
Definition env_browser_down : Env :=
  mkEnv (fun A _ _ => inl timeout_error)
        (fun _ _ _ => inr "{ok:true}")
        (fun _ => timestamp) false.

Definition worker_row : Setting := mkSetting "worker" (Some "") false.
Definition bot_row : Setting := mkSetting "telegram:bot" (Some "123456:TOKEN") true.
Definition screenshot_row : Setting := mkSetting "tradingview:screenshot" (Some "1D") true.
Definition screenshot_row_off : Setting := mkSetting "tradingview:screenshot" (Some "1D") false.
Definition credentials_row : Setting :=
  mkSetting "tradingview:credentials" (Some "trader@example.com:secret") true.

Definition aapl : Message :=
  mkMessage 1 "NASDAQ:AAPL Buy now" None "chan1,chan2" pending None.

(** The same payload with a tab after the symbol. *)
Definition aapl_tab : Message :=
  mkMessage 2 ("AAPL" +++ String (ascii_of_nat 9) "Buy now") None "chan1" pending None.

Definition btc : Message :=
  mkMessage 3 "BTCUSD Sell" (Some "4h") "chan3" pending None.

Definition st_aapl : State :=
  mkState [worker_row; bot_row; screenshot_row; credentials_row] [aapl] 0.

Definition st_aapl_off : State :=
  mkState [worker_row; bot_row; screenshot_row_off; credentials_row] [aapl] 0.

Definition st_two : State :=
  mkState [worker_row; bot_row; screenshot_row; credentials_row] [aapl; btc] 0.

Definition st_tab : State :=
  mkState [worker_row; bot_row; screenshot_row; credentials_row] [aapl_tab] 0.

(** No row of type [telegram:bot]. *)
Definition st_no_bot : State :=
  mkState [worker_row; screenshot_row; credentials_row] [aapl] 0.

(** No row of type [tradingview:screenshot], a message pending. *)
Definition st_no_screenshot : State :=
  mkState [worker_row; bot_row; credentials_row] [aapl] 0.

(** No row of type [tradingview:screenshot], the queue empty. *)
Definition st_no_screenshot_idle : State :=
  mkState [worker_row; bot_row; credentials_row] [] 0.

End Sample.

(* ================================================================== *)
(** ** Lemmas on strings *)
(* ================================================================== *)

Section Strings.

Lemma split_nonempty sep s : JS.split sep s <> [].
Proof.
  destruct s as [|c rest]; simpl; [discriminate|].
  destruct (Ascii.eqb c sep); [discriminate|].
  destruct (JS.split sep rest); discriminate.
Qed.

Lemma split_length_pos sep s : 1 <= length (JS.split sep s).
Proof.
  pose proof (split_nonempty sep s) as H.
  destruct (JS.split sep s); [congruence | simpl; lia].
Qed.

(** A string without the separator is its own single piece. *)
Lemma split_without sep s :
  JS.contains sep s = false -> JS.split sep s = [s].
Proof.
  induction s as [|c rest IH]; simpl; intros H; [reflexivity|].
  apply orb_false_iff in H. destruct H as [Hc Hrest].
  rewrite Hc, (IH Hrest). reflexivity.
Qed.

(** The first piece ends at the first separator. *)
Lemma split_app_sep sep a b :
  JS.contains sep a = false ->
  JS.split sep (a +++ String sep b) = a :: JS.split sep b.
Proof.
  induction a as [|c rest IH]; simpl; intros H.
  - rewrite Ascii.eqb_refl. reflexivity.
  - apply orb_false_iff in H. destruct H as [Hc Hrest].
    rewrite Hc, (IH Hrest). reflexivity.
Qed.

Lemma truthy_nonempty s : s <> EmptyString -> JS.truthy (Some s) = true.
Proof. destruct s; [congruence | reflexivity]. Qed.

(** The first piece of a split has no separator in it, and the string
    is that piece alone or that piece, a separator and the rest. *)
Lemma split_head sep s :
  exists first others,
    JS.split sep s = first :: others /\
    JS.contains sep first = false /\
    (s = first \/ exists rest, s = first +++ String sep rest).
Proof.
  induction s as [|c rest IH]; simpl.
  - exists EmptyString, []. auto.
  - destruct (Ascii.eqb c sep) eqn:E.
    + apply Ascii.eqb_eq in E. subst c.
      exists EmptyString, (JS.split sep rest). simpl.
      repeat split; auto. right. exists rest. reflexivity.
    + destruct IH as (first & others & Hs & Hc & Hd).
      rewrite Hs. exists (String c first), others. simpl.
      rewrite E, Hc. repeat split; auto.
      destruct Hd as [Hd | [r Hd]].
      * left. congruence.
      * right. exists r. rewrite Hd at 1. reflexivity.
Qed.

End Strings.

(* ================================================================== *)
(** ** Lemmas on traces *)
(* ================================================================== *)

Section Traces.

Lemma dispatches_app a b : dispatches (a ++ b) = dispatches a ++ dispatches b.
Proof.
  induction a as [|e a IH]; simpl; [reflexivity|].
  destruct e; simpl; rewrite ?IH; reflexivity.
Qed.

Lemma screenshot_calls_app a b :
  screenshot_calls (a ++ b) = screenshot_calls a ++ screenshot_calls b.
Proof.
  induction a as [|e a IH]; simpl; [reflexivity|].
  destruct e; simpl; rewrite ?IH; reflexivity.
Qed.

Lemma message_updates_app a b :
  message_updates (a ++ b) = message_updates a ++ message_updates b.
Proof.
  induction a as [|e a IH]; simpl; [reflexivity|].
  destruct e; simpl; rewrite ?IH; reflexivity.
Qed.

Lemma beats_app a b : beats (a ++ b) = beats a ++ beats b.
Proof.
  induction a as [|e a IH]; simpl; [reflexivity|].
  destruct e; simpl; rewrite ?IH; reflexivity.
Qed.

Lemma pages_no_dispatch evs :
  forallb is_page_event evs = true -> dispatches evs = [].
Proof.
  induction evs as [|e evs IH]; simpl; [reflexivity|].
  destruct e; simpl; try discriminate. exact IH.
Qed.

Lemma pages_no_screenshot_call evs :
  forallb is_page_event evs = true -> screenshot_calls evs = [].
Proof.
  induction evs as [|e evs IH]; simpl; [reflexivity|].
  destruct e; simpl; try discriminate. exact IH.
Qed.

Lemma pages_no_update evs :
  forallb is_page_event evs = true -> message_updates evs = [].
Proof.
  induction evs as [|e evs IH]; simpl; [reflexivity|].
  destruct e; simpl; try discriminate. exact IH.
Qed.

Lemma pages_no_beat evs :
  forallb is_page_event evs = true -> beats evs = [].
Proof.
  induction evs as [|e evs IH]; simpl; [reflexivity|].
  destruct e; simpl; try discriminate. exact IH.
Qed.

Lemma pages_not_processing evs :
  forallb is_page_event evs = true ->
  forallb (fun e => negb (is_processing e)) evs = true.
Proof.
  induction evs as [|e evs IH]; simpl; [reflexivity|].
  destruct e; simpl; try discriminate. exact IH.
Qed.

(** A stretch without a "Processing Message" line, followed by the next
    turn of the loop or by nothing, is cut where it ends. *)
Lemma until_next_message_app body rest :
  forallb (fun e => negb (is_processing e)) body = true ->
  match rest with [] => True | e :: _ => is_processing e = true end ->
  until_next_message (body ++ rest) = body.
Proof.
  induction body as [|e body IH]; simpl; intros Hb Hr.
  - destruct rest as [|e rest]; [reflexivity|]. simpl. rewrite Hr. reflexivity.
  - apply andb_true_iff in Hb. destruct Hb as [He Hb].
    apply negb_true_iff in He. rewrite He. f_equal. apply IH; assumption.
Qed.

Lemma message_events_skip id body rest :
  forallb (fun e => negb (is_processing e)) body = true ->
  message_events id (body ++ rest) = message_events id rest.
Proof.
  induction body as [|e body IH]; simpl; intros Hb; [reflexivity|].
  apply andb_true_iff in Hb. destruct Hb as [He Hb].
  destruct e; try (apply IH; assumption).
  destruct line; try (apply IH; assumption). discriminate.
Qed.

End Traces.

(* ================================================================== *)
(** ** What each function does, step by step *)
(* ================================================================== *)

Section Runs.

Variable env : Env.

Lemma updateWorkerStatus_run st :
  updateWorkerStatus false env st
  = (Ok tt, touch_state env st, [EvTouch (clock env (tick st))]).
Proof. reflexivity. Qed.

Lemma browser_only_ret A (a : A) : browser_only (ret a).
Proof. intros e st. repeat split. Qed.

Lemma browser_only_page A (op : page_op A) : browser_only (page op).
Proof. intros e st. repeat split. Qed.

Lemma browser_only_bind A B (m : M A) (k : A -> M B) :
  browser_only m -> (forall a, browser_only (k a)) -> browser_only (bind m k).
Proof.
  intros Hm Hk e st. specialize (Hm e st). unfold bind.
  destruct (m e st) as [[[a|err] st1] ev1]; cbn in Hm |- *.
  - specialize (Hk a e st1).
    destruct (k a e st1) as [[r st2] ev2]; cbn in Hk |- *.
    destruct Hm as (Hs & Hm & Hp). destruct Hk as (Hs' & Hm' & Hp').
    repeat split; try congruence.
    rewrite forallb_app, Hp, Hp'. reflexivity.
  - exact Hm.
Qed.

Lemma bind_page_head A B (op : page_op A) (k : A -> M B) st :
  exists rest, events_of (bind (page op) k env st) = EvPage op :: rest.
Proof.
  unfold bind, page.
  destruct (browser env A (tick st) op) as [err|a].
  - exists []. reflexivity.
  - destruct (k a env _) as [[r st2] ev2]. exists ev2. reflexivity.
Qed.

(** [screenshot] records its call, goes to the address computed from the
    symbol, and from there on only drives the browser. *)
Lemma screenshot_spec symbol timeframe st :
  exists r st' rest,
    screenshot symbol timeframe env st
    = (r, st', EvScreenshot symbol timeframe
               :: EvPage (Goto (screenshot_url symbol)) :: rest) /\
    settings st' = settings st /\
    messages st' = messages st /\
    forallb is_page_event rest = true.
Proof.
  unfold screenshot.
  match goal with
  | |- context [bind (emit ?e) (fun _ => ?body)] => set (tail := body)
  end.
  assert (Hb : browser_only tail).
  { subst tail.
    repeat first [ apply browser_only_bind; [apply browser_only_page | intros ?]
                 | apply browser_only_ret ]. }
  destruct (bind_page_head _ _ (Goto (screenshot_url symbol))
              (fun _ => page (WaitForSelector sel_chart_link) ;;
                        graph_url <- page EvalChartHref ;;
                        page (Goto graph_url) ;;
                        page (WaitForSelector ".menu-1fA401bY") ;;
                        page (Click ".menu-1fA401bY") ;;
                        page (WaitForSelector ".item-2xPVYue0") ;;
                        page (EvalClickTimeframe timeframe) ;;
                        page (WaitForSelector "[class='chart-loading-screen']") ;;
                        page (Click "#header-toolbar-screenshot") ;;
                        page (WaitForSelector sel_image_url) ;;
                        image_url <- page EvalImageUrl ;;
                        ret image_url) st) as [rest Hrest].
  fold tail in Hrest.
  specialize (Hb env st).
  unfold bind at 1. unfold emit.
  destruct (tail env st) as [[r st'] evs]. cbn in Hb, Hrest |- *.
  subst evs. destruct Hb as (Hs & Hm & Hp). cbn in Hp.
  exists r, st', rest. repeat split; assumption.
Qed.

(** With screenshots enabled, the image is the one [screenshot] returns,
    or the placeholder when it raises; the log of the row is written in
    the second case only; the heartbeat is touched in both. *)
Lemma acquire_image_enabled ss id timeframe symbol st :
  s_enabled ss = true ->
  acquire_image (Some ss) id timeframe symbol env st
  = match screenshot symbol (JS.or timeframe (s_data ss)) env st with
    | (Ok image, st1, ev1) =>
        (Ok (Some image), touch_state env st1,
         ev1 ++ [EvConsole (LogScreenshotSuccess symbol);
                 EvTouch (clock env (tick st1))])
    | (Throw err, st1, ev1) =>
        (Ok (Some placeholder_image),
         touch_state env (updated (mkFields None (JSON_stringify err)) id st1),
         ev1 ++ [EvMessageUpdate (mkFields None (JSON_stringify err)) id;
                 EvConsole (LogScreenshotFailed symbol);
                 EvTouch (clock env (tick st1))])
    end.
Proof.
  intros Hen. unfold acquire_image, prop. unfold bind at 1. unfold ret at 1.
  rewrite Hen. cbn [app].
  unfold bind at 1. unfold try_catch. unfold bind at 1. unfold ret at 1.
  unfold bind at 1.
  destruct (screenshot symbol (JS.or timeframe (s_data ss)) env st)
    as [[[image|err] st1] ev1]; cbn; rewrite <- ?app_assoc; reflexivity.
Qed.

Lemma acquire_image_disabled ss id timeframe symbol st :
  s_enabled ss = false ->
  acquire_image (Some ss) id timeframe symbol env st = (Ok None, st, []).
Proof.
  intros Hen. unfold acquire_image, prop, bind, ret. rewrite Hen. reflexivity.
Qed.

(** The send is made once, and its outcome is written to the row. *)
Lemma dispatch_run bot ss id data channel image st :
  dispatch bot (Some ss) id data channel image env st
  = let call := dispatch_call ss data channel image in
    let o := telegram env (tick st) bot call in
    (Ok tt,
     updated (dispatch_fields o) id
       (mkState (settings st) (messages st) (S (tick st))),
     [EvTelegram call o; EvMessageUpdate (dispatch_fields o) id;
      EvConsole (dispatch_line channel o)]).
Proof.
  unfold dispatch, dispatch_call, try_catch, prop, bind, ret, bot_send.
  destruct (s_enabled ss); cbn;
    match goal with
    | |- context [telegram env ?n ?b ?c] => destruct (telegram env n b c)
    end; reflexivity.
Qed.

End Runs.

(* ================================================================== *)
(** ** One channel, one message, one cycle *)
(* ================================================================== *)

Section Channel.

Variable env : Env.

Lemma quiet_app a b : quiet (a ++ b) = quiet a && quiet b.
Proof. apply forallb_app. Qed.

Lemma apply_fields_id f id m : m_id (apply_fields f id m) = m_id m.
Proof. unfold apply_fields. destruct (Z.eqb (m_id m) id); reflexivity. Qed.

Lemma apply_fields_other f id m : m_id m <> id -> apply_fields f id m = m.
Proof.
  intros H. unfold apply_fields.
  destruct (Z.eqb (m_id m) id) eqn:E; [apply Z.eqb_eq in E; contradiction | reflexivity].
Qed.

(** A later write of status and log hides an earlier write to the row. *)
Lemma apply_fields_absorb f o id m :
  apply_fields (dispatch_fields o) id (apply_fields f id m)
  = apply_fields (dispatch_fields o) id m.
Proof.
  unfold apply_fields.
  destruct (Z.eqb (m_id m) id) eqn:E; cbn; rewrite E; [|reflexivity].
  destruct o; reflexivity.
Qed.

Lemma map_apply_fields_absorb f o id ms :
  map (apply_fields (dispatch_fields o) id) (map (apply_fields f id) ms)
  = map (apply_fields (dispatch_fields o) id) ms.
Proof.
  rewrite map_map. apply map_ext. intros m. apply apply_fields_absorb.
Qed.

Lemma dispatch_fields_status o :
  u_status (dispatch_fields o) = Some (status_of_outcome o).
Proof. destruct o; reflexivity. Qed.

(** The row of a message after its dispatch has been recorded. *)
Lemma apply_dispatch_fields_same o id m :
  m_id m = id ->
  m_status (apply_fields (dispatch_fields o) id m) = status_of_outcome o /\
  m_log (apply_fields (dispatch_fields o) id m) = Some (u_log (dispatch_fields o)).
Proof.
  intros H. unfold apply_fields. rewrite H, Z.eqb_refl. cbn.
  rewrite dispatch_fields_status. split; reflexivity.
Qed.

Lemma dispatch_line_quiet channel o :
  is_processing (EvConsole (dispatch_line channel o)) = false.
Proof. destruct o; reflexivity. Qed.

(** One turn of the loop over the channels, both settings rows present. *)
Lemma process_channel_spec bot ss id data timeframe symbol channel st :
  exists image o st' evs,
    process_channel bot (Some ss) id data timeframe symbol channel env st
    = (Ok tt, st', evs) /\
    dispatches evs = [(dispatch_call ss data channel image, o)] /\
    In (EvMessageUpdate (dispatch_fields o) id) evs /\
    (image = None <-> s_enabled ss = false) /\
    screenshot_calls evs
    = (if s_enabled ss then [(symbol, JS.or timeframe (s_data ss))] else []) /\
    beats evs = channel_beats ss /\
    quiet evs = true /\
    messages st' = map (apply_fields (dispatch_fields o) id) (messages st).
Proof.
  unfold process_channel, channel_beats. unfold bind at 1.
  destruct (s_enabled ss) eqn:Hen.
  - rewrite (acquire_image_enabled env ss id timeframe symbol st Hen).
    destruct (screenshot_spec env symbol (JS.or timeframe (s_data ss)) st)
      as (r & st1 & pages & Hrun & Hs & Hm & Hp).
    rewrite Hrun.
    destruct r as [image|err]; unfold bind; rewrite dispatch_run;
      cbn beta iota zeta; rewrite updateWorkerStatus_run.
    + eexists (Some image), _, _, _. split; [reflexivity|].
      cbn. rewrite !dispatches_app, !screenshot_calls_app, !beats_app, !quiet_app.
      rewrite (pages_no_dispatch _ Hp), (pages_no_screenshot_call _ Hp),
        (pages_no_beat _ Hp).
      unfold quiet at 1. rewrite (pages_not_processing _ Hp).
      unfold quiet. cbn [forallb]. rewrite dispatch_line_quiet. cbn.
      rewrite Hm. split; [reflexivity|].
      split; [right; right; apply in_or_app; right; cbn; tauto|].
      repeat split; try reflexivity; discriminate.
    + eexists (Some placeholder_image), _, _, _. split; [reflexivity|].
      cbn. rewrite !dispatches_app, !screenshot_calls_app, !beats_app, !quiet_app.
      rewrite (pages_no_dispatch _ Hp), (pages_no_screenshot_call _ Hp),
        (pages_no_beat _ Hp).
      unfold quiet at 1. rewrite (pages_not_processing _ Hp).
      unfold quiet. cbn [forallb]. rewrite dispatch_line_quiet. cbn.
      rewrite Hm, map_apply_fields_absorb. split; [reflexivity|].
      split; [right; right; apply in_or_app; right; cbn; tauto|].
      repeat split; try reflexivity; discriminate.
  - rewrite (acquire_image_disabled env ss id timeframe symbol st Hen).
    unfold bind; rewrite dispatch_run; cbn beta iota zeta;
      rewrite updateWorkerStatus_run.
    eexists None, _, _, _. split; [reflexivity|].
    unfold quiet. cbn [forallb app]. rewrite dispatch_line_quiet.
    cbn. split; [reflexivity|]. split; [tauto|]. repeat split; reflexivity.
Qed.

End Channel.

Section MessageLoop.

Variable env : Env.

Lemma last_of_cons {A} (x : A) l :
  last_of (x :: l) = match last_of l with None => Some x | Some y => Some y end.
Proof.
  revert x. induction l as [|y l IH]; intros x; [reflexivity|].
  change (last_of (x :: y :: l)) with (last_of (y :: l)).
  rewrite (IH y). destruct (last_of l); reflexivity.
Qed.

Lemma last_of_nth {A} (l : list A) : last_of l = nth_error l (length l - 1).
Proof.
  induction l as [|x l IH]; [reflexivity|].
  destruct l as [|y l]; [reflexivity|].
  change (last_of (x :: y :: l)) with (last_of (y :: l)). rewrite IH.
  cbn [length]. replace (S (S (length l)) - 1) with (S (S (length l) - 1)) by lia.
  reflexivity.
Qed.

Lemma last_of_some {A} (l : list A) : l <> [] -> exists x, last_of l = Some x.
Proof.
  destruct l as [|x l]; [congruence|]. intros _.
  rewrite last_of_cons. destruct (last_of l); eauto.
Qed.

Lemma after_dispatches_cons id call o ds ms :
  after_dispatches id ds (map (apply_fields (dispatch_fields o) id) ms)
  = after_dispatches id ((call, o) :: ds) ms.
Proof.
  unfold after_dispatches. rewrite last_of_cons.
  destruct (last_of ds) as [[c o']|]; [|reflexivity].
  apply map_apply_fields_absorb.
Qed.

(** The loop over the channels of one message, both settings rows
    present: one send per channel, in order; one call of [screenshot]
    per channel when enabled and none otherwise; the row ends as the last
    send leaves it. *)
Lemma channels_loop_spec bot ss id data timeframe symbol channels :
  forall st,
  exists st' evs,
    for_each channels
      (process_channel bot (Some ss) id data timeframe symbol) env st
    = (Ok tt, st', evs) /\
    Forall2 (sent_to ss data) channels (dispatches evs) /\
    screenshot_calls evs
    = (if s_enabled ss
       then map (fun _ => (symbol, JS.or timeframe (s_data ss))) channels
       else []) /\
    beats evs = concat (map (fun _ => channel_beats ss) channels) /\
    quiet evs = true /\
    messages st' = after_dispatches id (dispatches evs) (messages st).
Proof.
  induction channels as [|channel rest IH]; intros st.
  - exists st, []. cbn. destruct (s_enabled ss); repeat split; constructor.
  - destruct (process_channel_spec env bot ss id data timeframe symbol channel st)
      as (image & o & st1 & ev1 & Hrun & Hd & _ & Himg & Hs & Hb & Hq & Hm).
    destruct (IH st1) as (st2 & ev2 & Hrun2 & Hd2 & Hs2 & Hb2 & Hq2 & Hm2).
    exists st2, (ev1 ++ ev2).
    cbn [for_each]. unfold bind. rewrite Hrun, Hrun2.
    rewrite dispatches_app, screenshot_calls_app, beats_app, quiet_app.
    rewrite Hd, Hs, Hb, Hq, Hs2, Hb2, Hq2, Hm2, Hm.
    split; [reflexivity|]. split.
    { cbn. constructor; [exists image; split; [reflexivity | exact Himg] | exact Hd2]. }
    split. { destruct (s_enabled ss); reflexivity. }
    split. { reflexivity. }
    split. { reflexivity. }
    cbn [app]. apply after_dispatches_cons.
Qed.

(** One turn of the loop over the messages. *)
Lemma process_message_spec bot ss m st :
  exists st' evs,
    process_message bot (Some ss) m env st
    = (Ok tt, st', EvConsole (LogProcessingMessage (m_id m)) :: evs) /\
    Forall2 (sent_to ss (m_data m)) (channels_of m) (dispatches evs) /\
    screenshot_calls evs
    = (if s_enabled ss
       then map (fun _ => (symbol_of (m_data m),
                           JS.or (m_timeframe m) (s_data ss))) (channels_of m)
       else []) /\
    beats evs = concat (map (fun _ => channel_beats ss) (channels_of m)) /\
    quiet evs = true /\
    messages st' = after_dispatches (m_id m) (dispatches evs) (messages st).
Proof.
  destruct (channels_loop_spec bot ss (m_id m) (m_data m) (m_timeframe m)
              (symbol_of (m_data m)) (channels_of m) st)
    as (st' & evs & Hrun & H).
  exists st', evs. split; [|exact H].
  unfold process_message, console_log, emit. unfold bind.
  unfold channels_of in Hrun. rewrite Hrun. reflexivity.
Qed.

End MessageLoop.

Section QueueLoop.

Variable env : Env.

Lemma after_dispatches_frame id ds ms :
  exists g,
    after_dispatches id ds ms = map g ms /\
    (forall r, m_id (g r) = m_id r) /\
    (forall r, m_id r <> id -> g r = r).
Proof.
  unfold after_dispatches. destruct (last_of ds) as [[c o]|].
  - exists (apply_fields (dispatch_fields o) id). split; [reflexivity|].
    split; [apply apply_fields_id | apply apply_fields_other].
  - exists (fun r => r). split; [symmetry; apply map_id|]. split; reflexivity.
Qed.

Lemma Forall2_app_sent {A B} (P : A -> B -> Prop) l1 l2 k1 k2 :
  Forall2 P l1 k1 -> Forall2 P l2 k2 -> Forall2 P (l1 ++ l2) (k1 ++ k2).
Proof. intros H1 H2. induction H1; cbn; [assumption | constructor; assumption]. Qed.

Lemma Forall2_map_pair ss m chs ds :
  Forall2 (sent_to ss (m_data m)) chs ds ->
  Forall2 (fun mc d => sent_to ss (m_data (fst mc)) (snd mc) d)
    (map (pair m) chs) ds.
Proof. intros H. induction H; cbn; constructor; assumption. Qed.

(** The loop over the pending messages, both settings rows present. *)
Lemma messages_loop_spec bot ss msgs :
  forall st,
  exists st' evs g,
    for_each msgs (process_message bot (Some ss)) env st = (Ok tt, st', evs) /\
    starts_with_processing evs /\
    Forall2 (fun mc d => sent_to ss (m_data (fst mc)) (snd mc) d)
      (owed msgs) (dispatches evs) /\
    screenshot_calls evs = owed_screenshots ss msgs /\
    beats evs = cycle_beats ss msgs /\
    messages st' = map g (messages st) /\
    (forall r, m_id (g r) = m_id r) /\
    (forall r, ~ In (m_id r) (map m_id msgs) -> g r = r) /\
    (NoDup (map m_id msgs) ->
     forall m, In m msgs ->
       message_outcome ss m (message_events (m_id m) evs) (messages st')).
Proof.
  induction msgs as [|x rest IH]; intros st.
  - exists st, [], (fun r => r). cbn.
    split; [reflexivity|]. split; [exact I|]. split; [constructor|].
    split; [unfold owed_screenshots; destruct (s_enabled ss); reflexivity|].
    split; [reflexivity|]. split; [symmetry; apply map_id|].
    split; [reflexivity|]. split; [reflexivity|].
    intros _ m [].
  - destruct (process_message_spec env bot ss x st)
      as (st1 & body & Hrun & Hd & Hs & Hb & Hq & Hm).
    destruct (IH st1)
      as (st2 & ev2 & g2 & Hrun2 & Hst2 & Hd2 & Hsc2 & Hb2 & Hm2 & Hid2 & Hfix2 & Hper).
    destruct (after_dispatches_frame (m_id x) (dispatches body) (messages st))
      as (g1 & Hg1 & Hid1 & Hfix1).
    exists st2, ((EvConsole (LogProcessingMessage (m_id x)) :: body) ++ ev2),
      (fun r => g2 (g1 r)).
    cbn [for_each]. unfold bind. rewrite Hrun, Hrun2.
    split; [reflexivity|]. split; [reflexivity|].
    split.
    { cbn [app dispatches]. rewrite dispatches_app. unfold owed. cbn [flat_map].
      apply Forall2_app_sent; [apply Forall2_map_pair; exact Hd | exact Hd2]. }
    split.
    { cbn [app screenshot_calls]. rewrite screenshot_calls_app, Hs, Hsc2.
      unfold owed_screenshots, owed. cbn [flat_map].
      destruct (s_enabled ss); [|reflexivity].
      rewrite map_app, map_map. reflexivity. }
    split.
    { cbn [app beats]. rewrite beats_app, Hb, Hb2.
      unfold cycle_beats, owed. cbn [flat_map].
      rewrite map_app, concat_app, map_map. reflexivity. }
    split. { rewrite Hm2, Hm, Hg1, map_map. reflexivity. }
    split. { intros r. rewrite Hid2. apply Hid1. }
    split.
    { intros r Hr. cbn [map In] in Hr.
      rewrite (Hfix1 r) by (intros E; apply Hr; left; symmetry; exact E).
      apply Hfix2. intros Hin; apply Hr; right; exact Hin. }
    intros Hnd m Hin. cbn [map] in Hnd. inversion Hnd as [|i l Hnotin Hnd']; subst.
    destruct Hin as [Heq | Hin].
    + subst m. cbn [app message_events]. rewrite Z.eqb_refl.
      rewrite (until_next_message_app body ev2 Hq Hst2).
      split; [exact Hd|]. split; [exact Hs|].
      assert (Hne : dispatches body <> []).
      { pose proof (split_nonempty comma (m_channels x)) as Hc.
        fold (channels_of x) in Hc. inversion Hd; congruence. }
      destruct (last_of_some _ Hne) as [[call o] Hlast].
      exists call, o. split; [exact Hlast|].
      intros row Hrow Hrid.
      rewrite Hm2 in Hrow. apply in_map_iff in Hrow.
      destruct Hrow as (r1 & Hr1 & Hin1). subst row.
      rewrite Hid2 in Hrid.
      rewrite (Hfix2 r1) by (rewrite Hrid; exact Hnotin).
      rewrite Hm in Hin1. unfold after_dispatches in Hin1. rewrite Hlast in Hin1.
      apply in_map_iff in Hin1. destruct Hin1 as (r0 & Hr0 & _). subst r1.
      rewrite apply_fields_id in Hrid.
      apply apply_dispatch_fields_same. exact Hrid.
    + assert (Hneq : Z.eqb (m_id x) (m_id m) = false).
      { apply Z.eqb_neq. intros E. apply Hnotin. rewrite E.
        apply in_map. exact Hin. }
      cbn [app message_events]. rewrite Hneq.
      rewrite (message_events_skip (m_id m) body ev2 Hq).
      apply Hper; assumption.
Qed.

End QueueLoop.

Section Cycle.

Variable env : Env.

(** A touch of the heartbeat changes no row that [Setting.findOne]
    returns for another type. *)
Lemma find_after_touch ts type l :
  type <> "worker" ->
  find (fun s => String.eqb (s_type s) type) (map (set_worker_data ts) l)
  = find (fun s => String.eqb (s_type s) type) l.
Proof.
  intros Hty. induction l as [|s l IH]; [reflexivity|].
  cbn [map find]. rewrite IH.
  assert (Hs : s_type (set_worker_data ts s) = s_type s).
  { unfold set_worker_data. destruct (String.eqb (s_type s) "worker"); reflexivity. }
  rewrite Hs.
  destruct (String.eqb (s_type s) type) eqn:E; [|reflexivity].
  apply String.eqb_eq in E. unfold set_worker_data.
  destruct (String.eqb (s_type s) "worker") eqn:Ew; [|reflexivity].
  apply String.eqb_eq in Ew. congruence.
Qed.

(** [processQueue], up to its loop. *)
Lemma processQueue_run st :
  processQueue env st
  = match lookup_setting "telegram:bot" st with
    | None => (Throw null_data, touch_state env st, cycle_prefix env st)
    | Some bot_settings =>
        match for_each (pending_messages st)
                (process_message (s_data bot_settings)
                   (lookup_setting "tradingview:screenshot" st))
                env (touch_state env st) with
        | (r, st', evs) => (r, st', cycle_prefix env st ++ evs)
        end
    end.
Proof.
  unfold processQueue. unfold bind at 1. rewrite updateWorkerStatus_run.
  unfold Setting_findOne, Message_findAll_pending, console_log, emit,
    get_state, bind, ret.
  cbn [touch_state settings messages app].
  rewrite !find_after_touch by discriminate.
  unfold lookup_setting, pending_messages, cycle_prefix.
  destruct (find (fun s => String.eqb (s_type s) "telegram:bot") (settings st))
    as [bot_settings|]; cbn [prop]; unfold ret, throw.
  - destruct (for_each _ _ env _) as [[r st'] evs]. reflexivity.
  - reflexivity.
Qed.

(** Without the screenshot row, the first look at its [enabled] flag
    raises: in the first turn of the loop over the channels. *)
Lemma process_message_no_screenshot_settings bot m st :
  process_message bot None m env st
  = (Throw null_enabled, st, [EvConsole (LogProcessingMessage (m_id m))]).
Proof.
  unfold process_message. pose proof (split_nonempty comma (m_channels m)) as Hne.
  destruct (JS.split comma (m_channels m)) as [|channel rest]; [congruence|].
  reflexivity.
Qed.

Lemma messages_loop_no_screenshot_settings bot msgs st :
  for_each msgs (process_message bot None) env st
  = match msgs with
    | [] => (Ok tt, st, [])
    | m :: _ => (Throw null_enabled, st, [EvConsole (LogProcessingMessage (m_id m))])
    end.
Proof.
  destruct msgs as [|m rest]; [reflexivity|].
  cbn [for_each]. unfold bind.
  rewrite process_message_no_screenshot_settings. reflexivity.
Qed.

(** Both rows present: the cycle runs to its end. *)
Lemma processQueue_spec st bot_settings ss :
  lookup_setting "telegram:bot" st = Some bot_settings ->
  lookup_setting "tradingview:screenshot" st = Some ss ->
  exists st' evs g,
    processQueue env st = (Ok tt, st', cycle_prefix env st ++ evs) /\
    starts_with_processing evs /\
    Forall2 (fun mc d => sent_to ss (m_data (fst mc)) (snd mc) d)
      (owed (pending_messages st)) (dispatches evs) /\
    screenshot_calls evs = owed_screenshots ss (pending_messages st) /\
    beats evs = cycle_beats ss (pending_messages st) /\
    messages st' = map g (messages st) /\
    (forall r, m_id (g r) = m_id r) /\
    (forall r, ~ In (m_id r) (map m_id (pending_messages st)) -> g r = r) /\
    (NoDup (map m_id (pending_messages st)) ->
     forall m, In m (pending_messages st) ->
       message_outcome ss m (message_events (m_id m) evs) (messages st')).
Proof.
  intros Hbot Hss. rewrite processQueue_run, Hbot, Hss.
  destruct (messages_loop_spec env (s_data bot_settings) ss (pending_messages st)
              (touch_state env st)) as (st' & evs & g & Hrun & H).
  exists st', evs, g. rewrite Hrun. split; [reflexivity | exact H].
Qed.

End Cycle.

(* ================================================================== *)
(** ** The top-level loop and the login *)
(* ================================================================== *)

Section Loop.

Variable env : Env.

(** A turn of the loop ends normally whatever the cycle does. *)
Lemma loop_iteration_run st :
  loop_iteration env st
  = (Ok tt, state_of (processQueue env st),
     EvConsole LogCheckingQueue
     :: (events_of (processQueue env st)
         ++ failure_report (outcome_of (processQueue env st)))
        ++ [EvConsole (LogRecheckIn 1); EvSleep 1000]).
Proof.
  unfold loop_iteration, try_catch, console_log, sleep, emit, bind.
  destruct (processQueue env st) as [[[[]|err] st1] evs]; cbn;
    rewrite ?app_nil_r; reflexivity.
Qed.

Lemma loop_iteration_turn st : completed_turn (events_of (loop_iteration env st)).
Proof. rewrite loop_iteration_run. eexists. reflexivity. Qed.

(** The loop reaches every turn. *)
Lemma worker_loop_runs n :
  forall st,
  exists st' turns,
    worker_loop n env st = (Ok tt, st', concat turns) /\
    length turns = n /\
    Forall completed_turn turns.
Proof.
  induction n as [|n IH]; intros st.
  - exists st, []. repeat split. constructor.
  - destruct (IH (state_of (processQueue env st)))
      as (st2 & turns & Hrun2 & Hlen & Hall).
    exists st2, (events_of (loop_iteration env st) :: turns).
    cbn [worker_loop]. unfold bind.
    pose proof (loop_iteration_turn st) as Hturn.
    rewrite loop_iteration_run in Hturn |- *. rewrite Hrun2.
    split; [reflexivity|]. split; [cbn; congruence|].
    constructor; assumption.
Qed.

End Loop.

Section Login.

Variable env : Env.

(** The login block, the credentials row present: it ends normally; it
    touches the browser only when the row is enabled, and then closes
    with a line that tells how the attempt went. *)
Lemma login_spec st cs :
  lookup_setting "tradingview:credentials" st = Some cs ->
  exists st' evs,
    login env st = (Ok tt, st', EvFindOne "tradingview:credentials" :: evs) /\
    settings st' = settings st /\
    messages st' = messages st /\
    (if s_enabled cs
     then exists pages line,
            evs = pages ++ [EvConsole line] /\
            forallb is_page_event pages = true /\
            login_report cs line
     else evs = []).
Proof.
  unfold lookup_setting. intros Hcs.
  unfold login, Setting_findOne, emit, get_state. unfold bind at 1 2 3.
  unfold ret at 1. cbn [app]. rewrite Hcs. cbn [prop]. unfold bind at 1.
  unfold ret at 1. cbn [app].
  destruct (s_enabled cs) eqn:Hen.
  - unfold try_catch, login_report.
    destruct (s_data cs) as [data|] eqn:Hdata.
    + unfold bind, page, method_split, console_log, emit, ret. cbn.
      repeat match goal with
             | |- context [browser env ?A ?n ?op] =>
                 destruct (browser env A n op); cbn
             | |- context [negb ?b] => destruct b; cbn
             end;
        eexists _, _; (split; [reflexivity|]); (split; [reflexivity|]);
        (split; [reflexivity|]);
        match goal with
        | |- exists pages line, ?l = _ /\ _ =>
            let n := eval cbv in (length l - 1) in
            exists (firstn n l); eexists; split; [reflexivity|];
            split; [reflexivity | eauto]
        end.
    + unfold bind, method_split, throw, console_log, emit, ret. cbn.
      eexists _, _. repeat split. exists []. eexists. repeat split. eauto.
  - unfold ret. eexists _, _. repeat split.
Qed.

End Login.

(* ================================================================== *)
(** ** The heartbeat along a cycle *)
(* ================================================================== *)

Section Heartbeat.

Lemma well_beaten_poll fresh bs :
  well_beaten fresh bs = true ->
  forall pre post, bs = pre ++ Poll :: post -> fresh = true \/ In Touch pre.
Proof.
  revert fresh. induction bs as [|b bs IH]; intros fresh Hw pre post E.
  - destruct pre; discriminate.
  - destruct pre as [|p pre]; cbn in E; injection E as Eb Ebs; subst.
    + cbn in Hw. apply andb_true_iff in Hw. left. apply Hw.
    + destruct p; cbn in Hw.
      * right. left. reflexivity.
      * apply andb_true_iff in Hw. destruct Hw as [Hf Hw].
        left. exact Hf.
      * apply andb_true_iff in Hw. destruct Hw as [Hf Hw].
        left. exact Hf.
      * assert (Hw' : well_beaten false (pre ++ Poll :: post) = true)
          by (destruct (pre ++ Poll :: post) as [|[] ?]; try discriminate; exact Hw).
        destruct (IH false Hw' pre post eq_refl) as [H|H]; [discriminate|].
        right. right. exact H.
Qed.

Lemma well_beaten_shot fresh bs :
  well_beaten fresh bs = true ->
  forall pre post, bs = pre ++ Shot :: post ->
    (fresh = true /\ ~ In Shot pre /\ ~ In Send pre) \/
    exists earlier gap,
      pre = earlier ++ Touch :: gap /\ ~ In Shot gap /\ ~ In Send gap.
Proof.
  revert fresh. induction bs as [|b bs IH]; intros fresh Hw pre post E.
  - destruct pre; discriminate.
  - destruct pre as [|p pre]; cbn in E; injection E as Eb Ebs; subst.
    + cbn in Hw. apply andb_true_iff in Hw. left. cbn. tauto.
    + assert (Hrest : forall f, well_beaten f (pre ++ Shot :: post) = true ->
                (f = true /\ ~ In Shot pre /\ ~ In Send pre) \/
                exists earlier gap,
                  pre = earlier ++ Touch :: gap /\ ~ In Shot gap /\ ~ In Send gap)
        by (intros f Hf; exact (IH f Hf pre post eq_refl)).
      destruct p; cbn in Hw.
      * right. destruct (Hrest true Hw) as [(_ & Hs & Hd) | (e & g & Hp & Hg)].
        -- exists [], pre. cbn. tauto.
        -- exists (Touch :: e), g. rewrite Hp. cbn. tauto.
      * apply andb_true_iff in Hw. destruct Hw as [Hf Hw].
        destruct (Hrest fresh Hw) as [(_ & Hs & Hd) | (e & g & Hp & Hg)].
        -- left. split; [exact Hf|]. cbn. split; intros [H|H]; try discriminate; tauto.
        -- right. exists (Poll :: e), g. rewrite Hp. cbn. tauto.
      * apply andb_true_iff in Hw. destruct Hw as [Hf Hw].
        destruct (Hrest false Hw) as [(Hc & _) | (e & g & Hp & Hg)];
          [discriminate|].
        right. exists (Shot :: e), g. rewrite Hp. cbn. tauto.
      * assert (Hw' : well_beaten false (pre ++ Shot :: post) = true)
          by (destruct (pre ++ Shot :: post) as [|[] ?]; try discriminate; exact Hw).
        destruct (Hrest false Hw') as [(Hc & _) | (e & g & Hp & Hg)];
          [discriminate|].
        right. exists (Send :: e), g. rewrite Hp. cbn. tauto.
Qed.

Lemma well_beaten_send fresh bs :
  well_beaten fresh bs = true ->
  forall pre post, bs = pre ++ Send :: post -> exists later, post = Touch :: later.
Proof.
  revert fresh. induction bs as [|b bs IH]; intros fresh Hw pre post E.
  - destruct pre; discriminate.
  - destruct pre as [|p pre]; cbn in E; injection E as Eb Ebs; subst.
    + cbn in Hw. destruct post as [|[] later]; try discriminate. eauto.
    + destruct p; cbn in Hw.
      * exact (IH true Hw pre post eq_refl).
      * apply andb_true_iff in Hw. exact (IH fresh (proj2 Hw) pre post eq_refl).
      * apply andb_true_iff in Hw. exact (IH false (proj2 Hw) pre post eq_refl).
      * assert (Hw' : well_beaten false (pre ++ Send :: post) = true)
          by (destruct (pre ++ Send :: post) as [|[] ?]; try discriminate; exact Hw).
        exact (IH false Hw' pre post eq_refl).
Qed.

(** The beats of the channels keep the scan happy. *)
Lemma well_beaten_channels ss (owed_sends : list (Message * string)) :
  well_beaten true (concat (map (fun _ => channel_beats ss) owed_sends)) = true.
Proof.
  induction owed_sends as [|x rest IH]; [reflexivity|].
  cbn [map concat]. unfold channel_beats at 1.
  destruct (s_enabled ss); cbn; exact IH.
Qed.

End Heartbeat.

(* ================================================================== *)
(** ** The properties of the specification *)
(* ================================================================== *)

Section Claims.

Lemma message_events_cycle env st id evs :
  message_events id (cycle_prefix env st ++ evs) = message_events id evs.
Proof. apply message_events_skip. reflexivity. Qed.

Lemma Forall2_length_eq {A B} (P : A -> B -> Prop) l k :
  Forall2 P l k -> length k = length l.
Proof. intros H. induction H; cbn; congruence. Qed.

End Claims.

(** C1.  For every message fetched as pending, with N channels, one call of
    [processQueue] (both settings rows present, the identifiers of the
    pending rows distinct) ends normally, makes exactly N sends and at most N
    calls of [screenshot] for that message, none when screenshots are
    disabled, and leaves every row of that identifier with the status of the
    N-th, last, send: [success] if it returned, [failed] if it raised. *)
Theorem C1_sends_screenshots_and_final_status :
  forall env st bot_settings ss m,
    lookup_setting "telegram:bot" st = Some bot_settings ->
    lookup_setting "tradingview:screenshot" st = Some ss ->
    NoDup (map m_id (pending_messages st)) ->
    In m (pending_messages st) ->
    let run := processQueue env st in
    let seg := message_events (m_id m) (events_of run) in
    let N := length (channels_of m) in
    outcome_of run = Ok tt /\
    1 <= N /\
    length (dispatches seg) = N /\
    length (screenshot_calls seg) <= N /\
    (s_enabled ss = false -> screenshot_calls seg = []) /\
    exists call o,
      nth_error (dispatches seg) (N - 1) = Some (call, o) /\
      (exists row, In row (messages (state_of run)) /\ m_id row = m_id m) /\
      (forall row, In row (messages (state_of run)) -> m_id row = m_id m ->
         m_status row = status_of_outcome o).
Proof.
  intros env st bot_settings ss m Hbot Hss Hnd Hin run seg N.
  destruct (processQueue_spec env st bot_settings ss Hbot Hss)
    as (st' & evs & g & Hrun & _ & _ & _ & _ & Hm & Hid & _ & Hper).
  destruct (Hper Hnd m Hin) as (Hd & Hs & call & o & Hlast & Hrows).
  subst run seg N. rewrite Hrun. cbn [outcome_of events_of state_of fst snd].
  rewrite message_events_cycle.
  pose proof (Forall2_length_eq _ _ _ Hd) as Hlen.
  split; [reflexivity|]. split; [apply split_length_pos|].
  split; [exact Hlen|]. split.
  { rewrite Hs. destruct (s_enabled ss); [rewrite length_map; lia | cbn; lia]. }
  split. { intros Hoff. rewrite Hs, Hoff. reflexivity. }
  exists call, o. split. { rewrite <- Hlen, <- last_of_nth. exact Hlast. }
  split.
  { exists (g m). split; [|apply Hid].
    rewrite Hm. apply in_map. unfold pending_messages in Hin.
    apply filter_In in Hin. apply Hin. }
  intros row Hrow Hrid. apply (Hrows row Hrow Hrid).
Qed.

(** C1 at work: the send to chan1 is refused, the send to chan2 goes
    through, and the row ends [success]. *)
Lemma C1_witness :
  let env := Sample.env_channel_down "chan1" in
  let st := Sample.st_aapl in
  let run := processQueue env st in
  let seg := message_events 1 (events_of run) in
  (lookup_setting "telegram:bot" st = Some Sample.bot_row /\
   lookup_setting "tradingview:screenshot" st = Some Sample.screenshot_row /\
   NoDup (map m_id (pending_messages st)) /\
   In Sample.aapl (pending_messages st)) /\
  outcome_of run = Ok tt /\
  1 <= 2 /\
  length (dispatches seg) = 2 /\
  length (screenshot_calls seg) <= 2 /\
  (true = false -> screenshot_calls seg = []) /\
  exists call o,
    nth_error (dispatches seg) (2 - 1) = Some (call, o) /\
    (exists row, In row (messages (state_of run)) /\ m_id row = 1%Z) /\
    (forall row, In row (messages (state_of run)) -> m_id row = 1%Z ->
       m_status row = status_of_outcome o).
Proof.
  assert (H1 : lookup_setting "telegram:bot" Sample.st_aapl = Some Sample.bot_row)
    by reflexivity.
  assert (H2 : lookup_setting "tradingview:screenshot" Sample.st_aapl
               = Some Sample.screenshot_row) by reflexivity.
  assert (H3 : NoDup (map m_id (pending_messages Sample.st_aapl)))
    by (cbn; constructor; [intros [] | constructor]).
  assert (H4 : In Sample.aapl (pending_messages Sample.st_aapl))
    by (cbn; left; reflexivity).
  split; [repeat split; assumption|].
  exact (C1_sends_screenshots_and_final_status
           (Sample.env_channel_down "chan1") Sample.st_aapl
           Sample.bot_row Sample.screenshot_row Sample.aapl H1 H2 H3 H4).
Defined.

(** The run of that witness, read off: two sends, the first refused, and
    the row left [success] with the response of the second. *)
Example cycle_first_channel_down :
  let run := processQueue (Sample.env_channel_down "chan1") Sample.st_aapl in
  map snd (dispatches (events_of run)) = [inl Sample.chat_not_found; inr "{ok:true}"] /\
  messages (state_of run)
  = [mkMessage 1 "NASDAQ:AAPL Buy now" None "chan1,chan2" success (Some "{ok:true}")].
Proof. split; reflexivity. Qed.

(** With the last channel down instead, the row is left [failed]. *)
Example cycle_last_channel_down :
  let run := processQueue (Sample.env_channel_down "chan2") Sample.st_aapl in
  map snd (dispatches (events_of run)) = [inr "{ok:true}"; inl Sample.chat_not_found] /\
  messages (state_of run)
  = [mkMessage 1 "NASDAQ:AAPL Buy now" None "chan1,chan2" failed
       (Some "{code:400,description:chat not found}")].
Proof. split; reflexivity. Qed.

(** Two messages, the channel of the second one down: the first row ends
    [success], the second [failed], and every send owed is made. *)
Example cycle_two_messages :
  let run := processQueue (Sample.env_channel_down "chan3") Sample.st_two in
  outcome_of run = Ok tt /\
  map fst (dispatches (events_of run))
  = [SendPhoto "chan1" (Some Sample.image_url) "NASDAQ:AAPL Buy now";
     SendPhoto "chan2" (Some Sample.image_url) "NASDAQ:AAPL Buy now";
     SendPhoto "chan3" (Some Sample.image_url) "BTCUSD Sell"] /\
  screenshot_calls (message_events 3 (events_of run)) = [("BTCUSD", Some "4h")] /\
  map m_status (messages (state_of run)) = [success; failed].
Proof. repeat split; reflexivity. Qed.

(** C2, as the specification has it, fails: with the row of type
    [tradingview:screenshot] absent and no message pending, the cycle never
    looks at that row and ends normally. *)
Lemma C2_counterexample :
  ~ (forall env st,
       lookup_setting "telegram:bot" st = None \/
       lookup_setting "tradingview:screenshot" st = None ->
       exists err, outcome_of (processQueue env st) = Throw err).
Proof.
  intros H.
  destruct (H Sample.env_ok Sample.st_no_screenshot_idle (or_intror eq_refl))
    as [err E].
  discriminate E.
Qed.

(** C2, amended.  If the row of type [telegram:bot] is absent, or the row of
    type [tradingview:screenshot] is absent while a message is pending,
    [processQueue] raises; the turn of the top-level loop in which that
    happens catches the error, logs it after the events of the cycle,
    announces the wait and sleeps; and from any state whatever the loop
    completes every one of its turns. *)
Theorem C2_missing_row_raises_and_the_loop_goes_on :
  forall env st,
    (lookup_setting "telegram:bot" st = None \/
     (lookup_setting "tradingview:screenshot" st = None /\
      pending_messages st <> []) ->
     exists err,
       outcome_of (processQueue env st) = Throw err /\
       loop_iteration env st
       = (Ok tt, state_of (processQueue env st),
          EvConsole LogCheckingQueue
          :: (events_of (processQueue env st)
              ++ [EvConsole (LogProcessQueueFailed err)])
             ++ [EvConsole (LogRecheckIn 1); EvSleep 1000])) /\
    (forall n,
     exists st' turns,
       worker_loop n env st = (Ok tt, st', concat turns) /\
       length turns = n /\
       Forall completed_turn turns).
Proof.
  intros env st. split; [|intros n; apply worker_loop_runs].
  intros Hmissing.
  assert (Hthrow : exists err, outcome_of (processQueue env st) = Throw err).
  { rewrite processQueue_run.
    destruct (lookup_setting "telegram:bot" st) as [bot_settings|] eqn:Hbot.
    - destruct Hmissing as [Hnone | [Hss Hpending]]; [discriminate|].
      rewrite Hss, messages_loop_no_screenshot_settings.
      destruct (pending_messages st) as [|m rest]; [congruence|].
      exists null_enabled. reflexivity.
    - exists null_data. reflexivity. }
  destruct Hthrow as [err Herr]. exists err. split; [exact Herr|].
  rewrite loop_iteration_run, Herr. reflexivity.
Qed.

(** C2 at work: no screenshot row, one message pending. *)
Lemma C2_witness :
  let env := Sample.env_ok in
  let st := Sample.st_no_screenshot in
  (lookup_setting "telegram:bot" st = None \/
   (lookup_setting "tradingview:screenshot" st = None /\
    pending_messages st <> [])) /\
  exists err,
    outcome_of (processQueue env st) = Throw err /\
    loop_iteration env st
    = (Ok tt, state_of (processQueue env st),
       EvConsole LogCheckingQueue
       :: (events_of (processQueue env st)
           ++ [EvConsole (LogProcessQueueFailed err)])
          ++ [EvConsole (LogRecheckIn 1); EvSleep 1000]).
Proof.
  assert (H : lookup_setting "telegram:bot" Sample.st_no_screenshot = None \/
              (lookup_setting "tradingview:screenshot" Sample.st_no_screenshot = None /\
               pending_messages Sample.st_no_screenshot <> []))
    by (right; split; [reflexivity | discriminate]).
  split; [exact H|].
  exact (proj1 (C2_missing_row_raises_and_the_loop_goes_on
                  Sample.env_ok Sample.st_no_screenshot) H).
Defined.

(** The two ways a missing row stops a cycle, read off. *)
Example cycle_without_bot_row :
  processQueue Sample.env_ok Sample.st_no_bot
  = (Throw null_data,
     touch_state Sample.env_ok Sample.st_no_bot,
     [EvTouch Sample.timestamp; EvFindOne "telegram:bot";
      EvFindOne "tradingview:screenshot"; EvFindAllPending;
      EvConsole (LogPendingMessages 1)]).
Proof. reflexivity. Qed.

Example cycle_without_screenshot_row :
  processQueue Sample.env_ok Sample.st_no_screenshot
  = (Throw null_enabled,
     touch_state Sample.env_ok Sample.st_no_screenshot,
     [EvTouch Sample.timestamp; EvFindOne "telegram:bot";
      EvFindOne "tradingview:screenshot"; EvFindAllPending;
      EvConsole (LogPendingMessages 1);
      EvConsole (LogProcessingMessage 1)]).
Proof. reflexivity. Qed.

(** C3, as the specification has it, fails: for the payload
    "NASDAQ:AAPL Buy now" the caption sent is the whole payload, not
    "Buy now". *)
Lemma C3_counterexample :
  ~ (forall env st bot_settings ss,
       lookup_setting "telegram:bot" st = Some bot_settings ->
       lookup_setting "tradingview:screenshot" st = Some ss ->
       s_enabled ss = true ->
       Forall2
         (fun mc d =>
            exists image,
              fst d = SendPhoto (snd mc) (Some image) (Spec.caption (m_data (fst mc))))
         (owed (pending_messages st))
         (dispatches (events_of (processQueue env st)))).
Proof.
  intros H.
  specialize (H Sample.env_ok Sample.st_aapl Sample.bot_row Sample.screenshot_row
                eq_refl eq_refl eq_refl).
  vm_compute in H.
  inversion H as [|mc d l k [image E] Hrest]; subst.
  discriminate E.
Qed.

(** C3, amended.  With screenshots enabled, the sends of a cycle are, in
    the order of the two loops, one image message per pending message and
    channel, and the caption of each is the whole [data] of its message. *)
Theorem C3_caption_is_the_whole_payload :
  forall env st bot_settings ss,
    lookup_setting "telegram:bot" st = Some bot_settings ->
    lookup_setting "tradingview:screenshot" st = Some ss ->
    s_enabled ss = true ->
    Forall2
      (fun mc d =>
         exists image, fst d = SendPhoto (snd mc) (Some image) (m_data (fst mc)))
      (owed (pending_messages st))
      (dispatches (events_of (processQueue env st))).
Proof.
  intros env st bot_settings ss Hbot Hss Hen.
  destruct (processQueue_spec env st bot_settings ss Hbot Hss)
    as (st' & evs & g & Hrun & _ & Hd & _).
  rewrite Hrun. cbn [events_of snd]. rewrite dispatches_app. cbn [cycle_prefix dispatches app].
  induction Hd as [|mc d l k [image [Hcall Himg]] Hrest IH]; constructor; [|exact IH].
  unfold dispatch_call in Hcall. rewrite Hen in Hcall.
  destruct image as [image|].
  - exists image. exact Hcall.
  - destruct Himg as [Himg _]. rewrite Hen in Himg. discriminate (Himg eq_refl).
Qed.

(** C3 at work: the scenario of the specification. *)
Lemma C3_witness :
  let env := Sample.env_ok in
  let st := Sample.st_aapl in
  (lookup_setting "telegram:bot" st = Some Sample.bot_row /\
   lookup_setting "tradingview:screenshot" st = Some Sample.screenshot_row /\
   s_enabled Sample.screenshot_row = true) /\
  Forall2
    (fun mc d =>
       exists image, fst d = SendPhoto (snd mc) (Some image) (m_data (fst mc)))
    [(Sample.aapl, "chan1"); (Sample.aapl, "chan2")]
    (dispatches (events_of (processQueue env st))).
Proof.
  split; [repeat split|].
  exact (C3_caption_is_the_whole_payload Sample.env_ok Sample.st_aapl
           Sample.bot_row Sample.screenshot_row eq_refl eq_refl eq_refl).
Defined.

(** The sends of that scenario, read off. *)
Example sends_of_the_scenario :
  map fst (dispatches (events_of (processQueue Sample.env_ok Sample.st_aapl)))
  = [SendPhoto "chan1" (Some Sample.image_url) "NASDAQ:AAPL Buy now";
     SendPhoto "chan2" (Some Sample.image_url) "NASDAQ:AAPL Buy now"] /\
  Spec.caption "NASDAQ:AAPL Buy now" = "Buy now".
Proof. split; reflexivity. Qed.

(** C4.  When the call of [screenshot] for a channel raises, the turn of the
    loop for that channel still ends normally.  The first half of the turn
    returns the placeholder image after writing the serialized error to the
    log of the rows of the message, every status of the table being then
    what it was before the turn; and the send that follows is an image
    message to that channel carrying the placeholder. *)
Theorem C4_screenshot_failure_is_contained :
  forall env bot ss id data timeframe symbol channel st err,
    s_enabled ss = true ->
    outcome_of (screenshot symbol (JS.or timeframe (s_data ss)) env st) = Throw err ->
    let shot := screenshot symbol (JS.or timeframe (s_data ss)) env st in
    let half := acquire_image (Some ss) id timeframe symbol env st in
    let turn := process_channel bot (Some ss) id data timeframe symbol channel env st in
    outcome_of half = Ok (Some placeholder_image) /\
    (exists now,
       events_of half
       = events_of shot
         ++ [EvMessageUpdate (mkFields None (JSON_stringify err)) id;
             EvConsole (LogScreenshotFailed symbol);
             EvTouch now]) /\
    map m_status (messages (state_of half)) = map m_status (messages st) /\
    (forall row, In row (messages (state_of half)) -> m_id row = id ->
       m_log row = Some (JSON_stringify err)) /\
    outcome_of turn = Ok tt /\
    exists o later,
      events_of turn
      = events_of half
        ++ EvTelegram (SendPhoto channel (Some placeholder_image) data) o :: later.
Proof.
  intros env bot ss id data timeframe symbol channel st err Hen Herr shot half turn.
  subst shot half turn.
  unfold process_channel, bind.
  rewrite (acquire_image_enabled env ss id timeframe symbol st Hen).
  destruct (screenshot_spec env symbol (JS.or timeframe (s_data ss)) st)
    as (r & st1 & pages & Hrun & Hs & Hm & Hp).
  rewrite Hrun in Herr |- *. cbn in Herr. subst r.
  cbn [outcome_of state_of events_of fst snd].
  split; [reflexivity|]. split; [eexists; reflexivity|].
  split.
  { cbn. rewrite Hm, map_map. apply map_ext. intros m.
    unfold apply_fields. destruct (Z.eqb (m_id m) id); reflexivity. }
  split.
  { intros row Hrow Hid. cbn in Hrow. apply in_map_iff in Hrow.
    destruct Hrow as (m & Hrow & _). subst row.
    rewrite apply_fields_id in Hid. unfold apply_fields.
    rewrite Hid, Z.eqb_refl. reflexivity. }
  rewrite dispatch_run. cbn beta iota zeta.
  rewrite updateWorkerStatus_run.
  cbn [outcome_of state_of events_of fst snd].
  split; [reflexivity|].
  unfold dispatch_call. rewrite Hen. eexists _, _. reflexivity.
Qed.

(** C4 at work: the browser times out at its first step. *)
Lemma C4_witness :
  let env := Sample.env_browser_down in
  let st := Sample.st_aapl in
  let shot := screenshot "NASDAQ:AAPL" (Some "1D") env st in
  let half := acquire_image (Some Sample.screenshot_row) 1 None "NASDAQ:AAPL" env st in
  let turn := process_channel (Some "123456:TOKEN") (Some Sample.screenshot_row) 1
                "NASDAQ:AAPL Buy now" None "NASDAQ:AAPL" "chan1" env st in
  (s_enabled Sample.screenshot_row = true /\
   outcome_of shot = Throw Sample.timeout_error) /\
  outcome_of half = Ok (Some placeholder_image) /\
  (exists now,
     events_of half
     = events_of shot
       ++ [EvMessageUpdate (mkFields None "{name:TimeoutError}") 1;
           EvConsole (LogScreenshotFailed "NASDAQ:AAPL");
           EvTouch now]) /\
  map m_status (messages (state_of half)) = map m_status (messages st) /\
  (forall row, In row (messages (state_of half)) -> m_id row = 1%Z ->
     m_log row = Some "{name:TimeoutError}") /\
  outcome_of turn = Ok tt /\
  exists o later,
    events_of turn
    = events_of half
      ++ EvTelegram (SendPhoto "chan1" (Some placeholder_image) "NASDAQ:AAPL Buy now") o
         :: later.
Proof.
  split; [split; reflexivity|].
  exact (C4_screenshot_failure_is_contained Sample.env_browser_down
           (Some "123456:TOKEN") Sample.screenshot_row 1 "NASDAQ:AAPL Buy now"
           None "NASDAQ:AAPL" "chan1" Sample.st_aapl Sample.timeout_error
           eq_refl eq_refl).
Defined.

(** The whole cycle of that witness: both sends carry the placeholder, and
    the row ends [success]. *)
Example cycle_browser_down :
  let run := processQueue Sample.env_browser_down Sample.st_aapl in
  outcome_of run = Ok tt /\
  map fst (dispatches (events_of run))
  = [SendPhoto "chan1" (Some placeholder_image) "NASDAQ:AAPL Buy now";
     SendPhoto "chan2" (Some placeholder_image) "NASDAQ:AAPL Buy now"] /\
  map fst (message_updates (events_of run))
  = [mkFields None "{name:TimeoutError}"; mkFields (Some success) "{ok:true}";
     mkFields None "{name:TimeoutError}"; mkFields (Some success) "{ok:true}"] /\
  map m_status (messages (state_of run)) = [success].
Proof. repeat split; reflexivity. Qed.

(** C5.  When the send to a channel raises, the turn of the loop for that
    channel still ends normally and leaves every row of the message with
    status [failed] and the serialized error as log; and a cycle with both
    settings rows present ends normally, after one send for every pending
    message and every one of its channels, in order, whatever the outcome
    of any send or screenshot. *)
Theorem C5_dispatch_failure_is_contained :
  forall env bot ss,
    (forall id data timeframe symbol channel st call err,
       let turn := process_channel bot (Some ss) id data timeframe symbol channel env st in
       In (call, inl err) (dispatches (events_of turn)) ->
       outcome_of turn = Ok tt /\
       In (EvMessageUpdate (mkFields (Some failed) (JSON_stringify err)) id)
          (events_of turn) /\
       forall row, In row (messages (state_of turn)) -> m_id row = id ->
         m_status row = failed /\ m_log row = Some (JSON_stringify err)) /\
    (forall st bot_settings,
       lookup_setting "telegram:bot" st = Some bot_settings ->
       lookup_setting "tradingview:screenshot" st = Some ss ->
       let run := processQueue env st in
       outcome_of run = Ok tt /\
       Forall2 (fun mc d => sent_to ss (m_data (fst mc)) (snd mc) d)
         (owed (pending_messages st)) (dispatches (events_of run))).
Proof.
  intros env bot ss. split.
  - intros id data timeframe symbol channel st call err turn Hin. subst turn.
    destruct (process_channel_spec env bot ss id data timeframe symbol channel st)
      as (image & o & st' & evs & Hrun & Hd & Hupd & _ & _ & _ & _ & Hm).
    rewrite Hrun in Hin |- *. cbn [outcome_of state_of events_of fst snd] in Hin |- *.
    rewrite Hd in Hin. destruct Hin as [Hin|[]]. injection Hin as _ Ho. subst o.
    split; [reflexivity|]. split; [exact Hupd|].
    intros row Hrow Hid. rewrite Hm in Hrow. apply in_map_iff in Hrow.
    destruct Hrow as (m & Hrow & _). subst row.
    rewrite apply_fields_id in Hid.
    apply (apply_dispatch_fields_same (inl err) id m Hid).
  - intros st bot_settings Hbot Hss run. subst run.
    destruct (processQueue_spec env st bot_settings ss Hbot Hss)
      as (st' & evs & g & Hrun & _ & Hd & _).
    rewrite Hrun. cbn [outcome_of events_of fst snd].
    rewrite dispatches_app. split; [reflexivity | exact Hd].
Qed.

(** C5 at work: the provider refuses chan1. *)
Lemma C5_witness :
  let env := Sample.env_channel_down "chan1" in
  let st := Sample.st_aapl in
  let turn := process_channel (Some "123456:TOKEN") (Some Sample.screenshot_row) 1
                "NASDAQ:AAPL Buy now" None "NASDAQ:AAPL" "chan1" env st in
  let run := processQueue env st in
  (In (SendPhoto "chan1" (Some Sample.image_url) "NASDAQ:AAPL Buy now",
       inl Sample.chat_not_found) (dispatches (events_of turn)) /\
   lookup_setting "telegram:bot" st = Some Sample.bot_row /\
   lookup_setting "tradingview:screenshot" st = Some Sample.screenshot_row) /\
  (outcome_of turn = Ok tt /\
   In (EvMessageUpdate
         (mkFields (Some failed) "{code:400,description:chat not found}") 1)
      (events_of turn) /\
   forall row, In row (messages (state_of turn)) -> m_id row = 1%Z ->
     m_status row = failed /\
     m_log row = Some "{code:400,description:chat not found}") /\
  (outcome_of run = Ok tt /\
   Forall2 (fun mc d => sent_to Sample.screenshot_row (m_data (fst mc)) (snd mc) d)
     [(Sample.aapl, "chan1"); (Sample.aapl, "chan2")]
     (dispatches (events_of run))).
Proof.
  pose proof (C5_dispatch_failure_is_contained
                (Sample.env_channel_down "chan1") (Some "123456:TOKEN")
                Sample.screenshot_row) as [Hturn Hrun].
  assert (Hin : In (SendPhoto "chan1" (Some Sample.image_url) "NASDAQ:AAPL Buy now",
                    inl Sample.chat_not_found)
                  (dispatches
                     (events_of
                        (process_channel (Some "123456:TOKEN")
                           (Some Sample.screenshot_row) 1 "NASDAQ:AAPL Buy now" None
                           "NASDAQ:AAPL" "chan1" (Sample.env_channel_down "chan1")
                           Sample.st_aapl))))
    by (vm_compute; left; reflexivity).
  split; [split; [exact Hin | split; reflexivity]|].
  split.
  - exact (Hturn 1%Z "NASDAQ:AAPL Buy now" None "NASDAQ:AAPL" "chan1" Sample.st_aapl
             _ _ Hin).
  - exact (Hrun Sample.st_aapl Sample.bot_row eq_refl eq_refl).
Defined.

(** C6.  For a symbol made of a non-empty exchange, a colon and a non-empty
    ticker, neither holding a colon, the address of the symbol page is built
    from the ticker and carries the exchange as a query parameter; for a
    symbol without a colon it is the bare form.  That address is where
    [screenshot] goes first. *)
Theorem C6_symbol_page_address :
  (forall exchange ticker,
     exchange <> "" -> ticker <> "" ->
     JS.contains colon exchange = false ->
     JS.contains colon ticker = false ->
     screenshot_url (exchange +++ ":" +++ ticker)
     = "https://www.tradingview.com/symbols/" +++ ticker
       +++ "/?exchange=" +++ exchange) /\
  (forall symbol,
     JS.contains colon symbol = false ->
     screenshot_url symbol = "https://www.tradingview.com/symbols/" +++ symbol +++ "/") /\
  (forall env symbol timeframe st,
     exists later,
       events_of (screenshot symbol timeframe env st)
       = EvScreenshot symbol timeframe
         :: EvPage (Goto (screenshot_url symbol)) :: later).
Proof.
  split; [|split].
  - intros exchange ticker He Ht Hce Hct. unfold screenshot_url.
    change (":" +++ ticker) with (String colon ticker).
    rewrite (split_app_sep colon exchange ticker Hce), (split_without colon ticker Hct).
    cbn [nth_error]. rewrite (truthy_nonempty _ He), (truthy_nonempty _ Ht).
    reflexivity.
  - intros symbol Hc. unfold screenshot_url.
    rewrite (split_without colon symbol Hc). reflexivity.
  - intros env symbol timeframe st.
    destruct (screenshot_spec env symbol timeframe st) as (r & st' & rest & Hrun & _).
    exists rest. rewrite Hrun. reflexivity.
Qed.

(** C6 at work. *)
Lemma C6_witness :
  (("NASDAQ" <> "" /\ "AAPL" <> "" /\
    JS.contains colon "NASDAQ" = false /\ JS.contains colon "AAPL" = false) /\
   screenshot_url "NASDAQ:AAPL"
   = "https://www.tradingview.com/symbols/AAPL/?exchange=NASDAQ") /\
  (JS.contains colon "BTCUSD" = false /\
   screenshot_url "BTCUSD" = "https://www.tradingview.com/symbols/BTCUSD/").
Proof.
  split.
  - assert (He : "NASDAQ" <> "") by discriminate.
    assert (Ht : "AAPL" <> "") by discriminate.
    split; [split; [exact He | split; [exact Ht | split; reflexivity]]|].
    exact (proj1 C6_symbol_page_address "NASDAQ" "AAPL" He Ht eq_refl eq_refl).
  - split; [reflexivity|].
    exact (proj1 (proj2 C6_symbol_page_address) "BTCUSD" eq_refl).
Defined.

(** Where the form of the symbol departs from the two of C6: an empty
    ticker or an empty exchange gives the bare form, colon included, and of
    a ticker with a colon only the part before that colon is used. *)
Example symbol_page_address_edges :
  screenshot_url "NASDAQ:" = "https://www.tradingview.com/symbols/NASDAQ:/" /\
  screenshot_url ":AAPL" = "https://www.tradingview.com/symbols/:AAPL/" /\
  screenshot_url "CME:ES:2021" = "https://www.tradingview.com/symbols/ES/?exchange=CME".
Proof. repeat split; reflexivity. Qed.

Section Symbol.

(** [data.split(" ")[0]] is the part of [data] before its first space. *)
Lemma symbol_of_prefix data :
  JS.contains space (symbol_of data) = false /\
  (data = symbol_of data \/
   exists rest, data = symbol_of data +++ String space rest).
Proof.
  unfold symbol_of.
  destruct (split_head space data) as (first & others & Hs & Hc & Hd).
  rewrite Hs. split; assumption.
Qed.

Lemma take_token_self s : no_whitespace s = true -> Spec.take_token s = s.
Proof.
  induction s as [|c s IH]; cbn; intros H; [reflexivity|].
  apply andb_true_iff in H. destruct H as [Hc Hs].
  apply negb_true_iff in Hc. rewrite Hc, (IH Hs). reflexivity.
Qed.

Lemma take_token_before_space s rest :
  no_whitespace s = true -> Spec.take_token (s +++ String space rest) = s.
Proof.
  induction s as [|c s IH]; cbn; intros H; [reflexivity|].
  apply andb_true_iff in H. destruct H as [Hc Hs].
  apply negb_true_iff in Hc. rewrite Hc, (IH Hs). reflexivity.
Qed.

Lemma skip_whitespace_none s rest :
  s <> "" -> no_whitespace s = true ->
  Spec.skip_whitespace (s +++ rest) = s +++ rest.
Proof.
  destruct s as [|c s]; [congruence|]. cbn. intros _ H.
  apply andb_true_iff in H. destruct H as [Hc _].
  apply negb_true_iff in Hc. rewrite Hc. reflexivity.
Qed.

Lemma skip_whitespace_self s :
  s <> "" -> no_whitespace s = true -> Spec.skip_whitespace s = s.
Proof.
  destruct s as [|c s]; [congruence|]. cbn. intros _ H.
  apply andb_true_iff in H. destruct H as [Hc _].
  apply negb_true_iff in Hc. rewrite Hc. reflexivity.
Qed.

(** Where the code and the words of the specification agree. *)
Lemma symbol_of_first_token data :
  symbol_of data <> "" ->
  no_whitespace (symbol_of data) = true ->
  symbol_of data = Spec.first_token data.
Proof.
  intros Hne Hws. unfold Spec.first_token.
  destruct (symbol_of_prefix data) as [_ Hd].
  set (sym := symbol_of data) in *.
  destruct Hd as [Hd | [rest Hd]]; rewrite Hd.
  - rewrite (skip_whitespace_self sym Hne Hws).
    symmetry. apply take_token_self. exact Hws.
  - rewrite (skip_whitespace_none sym _ Hne Hws).
    symmetry. apply take_token_before_space. exact Hws.
Qed.

End Symbol.

(** C7, as the specification has it, fails: when a tab follows the ticker,
    the symbol handed to [screenshot] runs on to the first space. *)
Lemma C7_counterexample :
  ~ (forall env st bot_settings ss,
       lookup_setting "telegram:bot" st = Some bot_settings ->
       lookup_setting "tradingview:screenshot" st = Some ss ->
       s_enabled ss = true ->
       map fst (screenshot_calls (events_of (processQueue env st)))
       = map (fun mc => Spec.first_token (m_data (fst mc)))
           (owed (pending_messages st))).
Proof.
  intros H.
  specialize (H Sample.env_ok Sample.st_tab Sample.bot_row Sample.screenshot_row
                eq_refl eq_refl eq_refl).
  vm_compute in H. discriminate H.
Qed.

(** C7, amended.  With screenshots enabled, the symbol of every call of
    [screenshot] in a cycle is, for the message it serves, the part of
    [data] before its first space character, the whole of [data] when it
    has none; that part is the first whitespace-delimited token whenever it
    is not empty and holds no other white space. *)
Theorem C7_symbol_is_the_part_before_the_first_space :
  (forall env st bot_settings ss,
     lookup_setting "telegram:bot" st = Some bot_settings ->
     lookup_setting "tradingview:screenshot" st = Some ss ->
     s_enabled ss = true ->
     map fst (screenshot_calls (events_of (processQueue env st)))
     = map (fun mc => symbol_of (m_data (fst mc))) (owed (pending_messages st))) /\
  (forall data,
     JS.contains space (symbol_of data) = false /\
     (data = symbol_of data \/
      exists rest, data = symbol_of data +++ String space rest)) /\
  (forall data,
     symbol_of data <> "" ->
     no_whitespace (symbol_of data) = true ->
     symbol_of data = Spec.first_token data).
Proof.
  split; [|split; [exact symbol_of_prefix | exact symbol_of_first_token]].
  intros env st bot_settings ss Hbot Hss Hen.
  destruct (processQueue_spec env st bot_settings ss Hbot Hss)
    as (st' & evs & g & Hrun & _ & _ & Hsc & _).
  rewrite Hrun. cbn [events_of snd]. rewrite screenshot_calls_app, Hsc.
  unfold owed_screenshots. rewrite Hen. cbn [cycle_prefix screenshot_calls app].
  rewrite map_map. reflexivity.
Qed.

(** C7 at work: the scenario of the specification, and a payload where the
    two readings agree. *)
Lemma C7_witness :
  let env := Sample.env_ok in
  let st := Sample.st_aapl in
  ((lookup_setting "telegram:bot" st = Some Sample.bot_row /\
    lookup_setting "tradingview:screenshot" st = Some Sample.screenshot_row /\
    s_enabled Sample.screenshot_row = true) /\
   map fst (screenshot_calls (events_of (processQueue env st)))
   = ["NASDAQ:AAPL"; "NASDAQ:AAPL"]) /\
  ((symbol_of "BTCUSD Sell" <> "" /\ no_whitespace (symbol_of "BTCUSD Sell") = true) /\
   symbol_of "BTCUSD Sell" = Spec.first_token "BTCUSD Sell").
Proof.
  split.
  - split; [split; [reflexivity | split; reflexivity]|].
    exact (proj1 C7_symbol_is_the_part_before_the_first_space
             Sample.env_ok Sample.st_aapl Sample.bot_row Sample.screenshot_row
             eq_refl eq_refl eq_refl).
  - assert (Hne : symbol_of "BTCUSD Sell" <> "") by (cbn; discriminate).
    split; [split; [exact Hne | reflexivity]|].
    exact (proj2 (proj2 C7_symbol_is_the_part_before_the_first_space)
             "BTCUSD Sell" Hne eq_refl).
Defined.

(** The symbols that the code and the specification read in three payloads:
    a tab after the ticker, a leading space, two spaces. *)
Example symbols_read :
  symbol_of (m_data Sample.aapl_tab) = "AAPL" +++ String (ascii_of_nat 9) "Buy" /\
  Spec.first_token (m_data Sample.aapl_tab) = "AAPL" /\
  symbol_of " AAPL Buy" = "" /\
  Spec.first_token " AAPL Buy" = "AAPL" /\
  symbol_of "AAPL  Buy" = "AAPL" /\
  Spec.first_token "AAPL  Buy" = "AAPL".
Proof. repeat split; reflexivity. Qed.

Section CycleBeats.

(** The beats of any cycle: a touch, the poll, then the beats of the
    channels served. *)
Lemma processQueue_beats env st :
  exists ss (served : list (Message * string)),
    beats (events_of (processQueue env st))
    = Touch :: Poll :: concat (map (fun _ => channel_beats ss) served).
Proof.
  rewrite processQueue_run.
  destruct (lookup_setting "telegram:bot" st) as [bot_settings|] eqn:Hbot.
  - destruct (lookup_setting "tradingview:screenshot" st) as [ss|] eqn:Hss.
    + destruct (messages_loop_spec env (s_data bot_settings) ss
                  (pending_messages st) (touch_state env st))
        as (st' & evs & g & Hrun & _ & _ & _ & Hb & _).
      rewrite Hrun. exists ss, (owed (pending_messages st)).
      cbn [events_of snd]. rewrite beats_app, Hb. reflexivity.
    + rewrite messages_loop_no_screenshot_settings.
      exists (mkSetting "tradingview:screenshot" None false), [].
      destruct (pending_messages st); reflexivity.
  - exists (mkSetting "tradingview:screenshot" None false), []. reflexivity.
Qed.

End CycleBeats.

(** C8.  In every cycle, whatever the state and the environment, the
    heartbeat is touched first and then the queue is polled; between a
    screenshot attempt and the attempt or send before it, or the start of
    the cycle, the heartbeat is touched; and right after every send the
    heartbeat is touched. *)
Theorem C8_heartbeat_along_a_cycle :
  forall env st,
    let bs := beats (events_of (processQueue env st)) in
    (exists later, bs = Touch :: Poll :: later) /\
    touch_before_poll bs /\
    touch_before_each_screenshot bs /\
    touch_after_each_send bs.
Proof.
  intros env st bs. subst bs.
  destruct (processQueue_beats env st) as (ss & served & Hb).
  rewrite Hb.
  assert (Hw : well_beaten false
                 (Touch :: Poll :: concat (map (fun _ => channel_beats ss) served))
               = true)
    by (cbn; apply well_beaten_channels).
  split; [eexists; reflexivity|]. split; [|split].
  - intros pre post E.
    destruct (well_beaten_poll _ _ Hw pre post E) as [H|H]; [discriminate | exact H].
  - intros pre post E.
    destruct (well_beaten_shot _ _ Hw pre post E) as [[H _]|H]; [discriminate | exact H].
  - intros pre post E. exact (well_beaten_send _ _ Hw pre post E).
Qed.

(** C8 at work: the beats of the scenario of the specification. *)
Lemma C8_witness :
  let bs := [Touch; Poll; Shot; Touch; Send; Touch; Shot; Touch; Send; Touch] in
  beats (events_of (processQueue Sample.env_ok Sample.st_aapl)) = bs /\
  (exists later, bs = Touch :: Poll :: later) /\
  touch_before_poll bs /\
  touch_before_each_screenshot bs /\
  touch_after_each_send bs.
Proof.
  split; [reflexivity|].
  exact (C8_heartbeat_along_a_cycle Sample.env_ok Sample.st_aapl).
Defined.

(** The beats with screenshots disabled, and those of a cycle that stops
    at a missing row. *)
Example beats_read :
  beats (events_of (processQueue Sample.env_ok Sample.st_aapl_off))
  = [Touch; Poll; Send; Touch; Send; Touch] /\
  beats (events_of (processQueue Sample.env_ok Sample.st_no_bot)) = [Touch; Poll] /\
  beats (events_of (processQueue Sample.env_ok Sample.st_no_screenshot)) = [Touch; Poll].
Proof. repeat split; reflexivity. Qed.

Section Startup.

Variable env : Env.

(** The first touch of [init] leaves the rows of the other types as they
    are. *)
Lemma lookup_after_findOrCreate type st cs ts :
  lookup_setting type st = Some cs ->
  lookup_setting type (state_of (Setting_findOrCreate_worker ts env st)) = Some cs.
Proof.
  unfold lookup_setting, Setting_findOrCreate_worker. cbn [state_of fst snd].
  intros H.
  destruct (find (fun s => String.eqb (s_type s) "worker") (settings st));
    [exact H|].
  cbn [settings].
  induction (settings st) as [|s l IH]; [discriminate|].
  cbn [app find] in H |- *.
  destruct (String.eqb (s_type s) type); [exact H | exact (IH H)].
Qed.

(** [init] with the credentials row present: it reaches its loop and the
    loop completes every turn. *)
Lemma init_runs n st cs :
  lookup_setting "tradingview:credentials" st = Some cs ->
  exists st' startup turns,
    init n env st = (Ok tt, st', startup ++ concat turns) /\
    length turns = n /\
    Forall completed_turn turns.
Proof.
  intros Hcs. unfold init, console_log, emit. unfold bind at 1 2 3.
  cbn [updateWorkerStatus]. unfold bind at 1. unfold now at 1.
  set (st0 := mkState (settings st) (messages st) (S (tick st))).
  assert (Hcs0 : lookup_setting "tradingview:credentials" st0 = Some cs) by exact Hcs.
  pose proof (lookup_after_findOrCreate _ st0 cs (clock env (tick st)) Hcs0) as Hcs1.
  destruct (Setting_findOrCreate_worker (clock env (tick st)) env st0)
    as [[r st1] ev1] eqn:Hfc.
  assert (Hr : r = Ok tt) by (unfold Setting_findOrCreate_worker in Hfc; congruence).
  subst r. cbn [state_of fst snd] in Hcs1.
  unfold bind at 1.
  destruct (login_spec env st1 cs Hcs1) as (st2 & evs & Hlogin & _).
  rewrite Hlogin.
  destruct (worker_loop_runs env n st2) as (st3 & turns & Hloop & Hlen & Hall).
  rewrite Hloop.
  exists st3,
    (EvConsole LogWorkerStarted
     :: ev1 ++ EvConsole LogBrowserOpened
        :: EvFindOne "tradingview:credentials" :: evs),
    turns.
  split; [|split; assumption].
  cbn [app]. rewrite <- app_assoc. reflexivity.
Qed.

End Startup.

(** C9.  With the credentials row present, whatever its flag and its data
    and whatever the browser does: the login block ends normally; it
    touches the browser only when the flag is true, and then closes with a
    line that reports success, invalid credentials or the error caught; and
    [init] goes on to its loop, which completes every turn. *)
Theorem C9_login_never_stops_startup :
  forall env st cs,
    lookup_setting "tradingview:credentials" st = Some cs ->
    outcome_of (login env st) = Ok tt /\
    (exists evs,
       events_of (login env st) = EvFindOne "tradingview:credentials" :: evs /\
       if s_enabled cs
       then exists pages line,
              evs = pages ++ [EvConsole line] /\
              forallb is_page_event pages = true /\
              login_report cs line
       else evs = []) /\
    (forall n,
     exists st' startup turns,
       init n env st = (Ok tt, st', startup ++ concat turns) /\
       length turns = n /\
       Forall completed_turn turns).
Proof.
  intros env st cs Hcs.
  destruct (login_spec env st cs Hcs) as (st' & evs & Hrun & _ & _ & Hevs).
  rewrite Hrun. split; [reflexivity|]. split.
  - exists evs. split; [reflexivity | exact Hevs].
  - intros n. exact (init_runs env n st cs Hcs).
Qed.

(** C9 at work: the credentials are enabled and the browser times out. *)
Lemma C9_witness :
  let env := Sample.env_browser_down in
  let st := Sample.st_aapl in
  let cs := Sample.credentials_row in
  lookup_setting "tradingview:credentials" st = Some cs /\
  outcome_of (login env st) = Ok tt /\
  (exists evs,
     events_of (login env st) = EvFindOne "tradingview:credentials" :: evs /\
     if s_enabled cs
     then exists pages line,
            evs = pages ++ [EvConsole line] /\
            forallb is_page_event pages = true /\
            login_report cs line
     else evs = []) /\
  (forall n,
   exists st' startup turns,
     init n env st = (Ok tt, st', startup ++ concat turns) /\
     length turns = n /\
     Forall completed_turn turns).
Proof.
  split; [reflexivity|].
  exact (C9_login_never_stops_startup Sample.env_browser_down Sample.st_aapl
           Sample.credentials_row eq_refl).
Defined.

(** The login of that witness, and the login with every step working, read
    off; and what [init] does without the credentials row. *)
Example logins_read :
  events_of (login Sample.env_browser_down Sample.st_aapl)
  = [EvFindOne "tradingview:credentials";
     EvPage (Goto "https://www.tradingview.com/#signin");
     EvConsole (LogLoginFailed Sample.timeout_error)] /\
  events_of (login Sample.env_ok Sample.st_aapl)
  = [EvFindOne "tradingview:credentials";
     EvPage (Goto "https://www.tradingview.com/#signin");
     EvPage (Click "span.js-show-email");
     EvPage (TypeText sel_username (Some "trader@example.com"));
     EvPage (TypeText sel_password (Some "secret"));
     EvPage (Click sel_submit);
     EvPage RaceNavigationOrError;
     EvPage EvalLoginFailed;
     EvConsole (LogLoginSuccess (Some "trader@example.com:secret"))] /\
  outcome_of (init 3 Sample.env_ok (mkState [Sample.bot_row] [] 0))
  = Throw null_enabled.
Proof. repeat split; reflexivity. Qed.

(** C10, as written, fails in its account of where the cycle stops: with
    the row of type [tradingview:screenshot] absent and a message pending,
    the cycle raises after the loop over the messages has begun, as the
    line "Processing Message ID" in its trace shows. *)
Lemma C10_counterexample :
  ~ (forall env st err,
       lookup_setting "telegram:bot" st = None \/
       lookup_setting "tradingview:screenshot" st = None ->
       outcome_of (processQueue env st) = Throw err ->
       messages (state_of (processQueue env st)) = messages st /\
       quiet (events_of (processQueue env st)) = true /\
       exists later,
         events_of (processQueue env st) = EvTouch (clock env (tick st)) :: later).
Proof.
  intros H.
  destruct (H Sample.env_ok Sample.st_no_screenshot null_enabled
              (or_intror eq_refl) eq_refl) as (_ & Hquiet & _).
  vm_compute in Hquiet. discriminate Hquiet.
Qed.

(** C10, amended.  If [processQueue] raises because the row of type
    [telegram:bot] or the row of type [tradingview:screenshot] is absent,
    then no row of the message table is changed and no update of it, no
    screenshot and no send is made in that cycle, although the heartbeat
    has been touched first.  With the bot row absent the cycle stops before
    the loop over the messages; with only the screenshot row absent it
    stops in the first turn of that loop, for the first channel of the
    first pending message. *)
Theorem C10_abort_leaves_the_queue_untouched :
  forall env st err,
    lookup_setting "telegram:bot" st = None \/
    lookup_setting "tradingview:screenshot" st = None ->
    outcome_of (processQueue env st) = Throw err ->
    let run := processQueue env st in
    messages (state_of run) = messages st /\
    message_updates (events_of run) = [] /\
    screenshot_calls (events_of run) = [] /\
    dispatches (events_of run) = [] /\
    settings (state_of run)
    = map (set_worker_data (clock env (tick st))) (settings st) /\
    (exists later, events_of run = EvTouch (clock env (tick st)) :: later) /\
    (lookup_setting "telegram:bot" st = None ->
     events_of run = cycle_prefix env st) /\
    (lookup_setting "telegram:bot" st <> None ->
     exists m rest,
       pending_messages st = m :: rest /\
       events_of run
       = cycle_prefix env st ++ [EvConsole (LogProcessingMessage (m_id m))]).
Proof.
  intros env st err Hmissing Herr run. subst run.
  rewrite processQueue_run in Herr |- *.
  destruct (lookup_setting "telegram:bot" st) as [bot_settings|] eqn:Hbot.
  - destruct Hmissing as [Hnone | Hss]; [discriminate|].
    rewrite Hss, messages_loop_no_screenshot_settings in Herr |- *.
    destruct (pending_messages st) as [|m rest] eqn:Hpending; [discriminate Herr|].
    cbn [state_of events_of fst snd].
    repeat split; try reflexivity.
    + eexists. reflexivity.
    + intros H. discriminate H.
    + intros _. exists m, rest. split; reflexivity.
  - cbn [state_of events_of fst snd].
    repeat split; try reflexivity.
    + eexists. reflexivity.
    + intros H. congruence.
Qed.

(** C10 at work: no screenshot row, one message pending. *)
Lemma C10_witness :
  let env := Sample.env_ok in
  let st := Sample.st_no_screenshot in
  let run := processQueue env st in
  ((lookup_setting "telegram:bot" st = None \/
    lookup_setting "tradingview:screenshot" st = None) /\
   outcome_of run = Throw null_enabled) /\
  messages (state_of run) = messages st /\
  message_updates (events_of run) = [] /\
  screenshot_calls (events_of run) = [] /\
  dispatches (events_of run) = [] /\
  settings (state_of run) = map (set_worker_data (clock env (tick st))) (settings st) /\
  (exists later, events_of run = EvTouch (clock env (tick st)) :: later) /\
  (lookup_setting "telegram:bot" st = None ->
   events_of run = cycle_prefix env st) /\
  (lookup_setting "telegram:bot" st <> None ->
   exists m rest,
     pending_messages st = m :: rest /\
     events_of run
     = cycle_prefix env st ++ [EvConsole (LogProcessingMessage (m_id m))]).
Proof.
  split; [split; [right; reflexivity | reflexivity]|].
  exact (C10_abort_leaves_the_queue_untouched Sample.env_ok Sample.st_no_screenshot
           null_enabled (or_intror eq_refl) eq_refl).
Defined.

(* ================================================================== *)
(** ** Further properties of the code *)
(* ================================================================== *)

Section HeartbeatRecorder.

Lemma set_worker_data_kind ts s : is_worker (set_worker_data ts s) = is_worker s.
Proof.
  unfold set_worker_data, is_worker.
  destruct (String.eqb (s_type s) "worker") eqn:E; [cbn; exact E | exact E].
Qed.

Lemma set_worker_data_worker ts s :
  is_worker s = true ->
  set_worker_data ts s = mkSetting (s_type s) (Some ts) (s_enabled s).
Proof. unfold set_worker_data, is_worker. intros H. rewrite H. reflexivity. Qed.

Lemma set_worker_data_other ts s :
  is_worker s = false -> set_worker_data ts s = s.
Proof. unfold set_worker_data, is_worker. intros H. rewrite H. reflexivity. Qed.

Lemma find_worker_none_map ts l :
  find is_worker l = None -> map (set_worker_data ts) l = l.
Proof.
  induction l as [|s l IH]; [reflexivity|]. cbn [find map].
  destruct (is_worker s) eqn:E; [discriminate|].
  intros H. rewrite (IH H), (set_worker_data_other ts s E). reflexivity.
Qed.

Lemma find_worker_after_touch ts l :
  find is_worker (map (set_worker_data ts) l)
  = option_map (fun s => mkSetting (s_type s) (Some ts) (s_enabled s))
      (find is_worker l).
Proof.
  induction l as [|s l IH]; [reflexivity|]. cbn [find map].
  rewrite set_worker_data_kind.
  destruct (is_worker s) eqn:E.
  - rewrite (set_worker_data_worker ts s E). reflexivity.
  - exact IH.
Qed.

Lemma other_rows_after_touch ts l :
  filter (fun s => negb (is_worker s)) (map (set_worker_data ts) l)
  = filter (fun s => negb (is_worker s)) l.
Proof.
  induction l as [|s l IH]; [reflexivity|]. cbn [filter map].
  rewrite set_worker_data_kind, IH.
  destruct (is_worker s) eqn:E; cbn [negb]; [reflexivity|].
  rewrite (set_worker_data_other ts s E). reflexivity.
Qed.

End HeartbeatRecorder.

(** X1.  A touch of the heartbeat, [updateWorkerStatus()], ends normally,
    leaves the queue and every settings row of another type as they are,
    and creates no row: with no row of type [worker] the settings table is
    left exactly as it was; otherwise the row that a lookup of [worker]
    finds holds the time of the touch afterwards. *)
Theorem X1_touch_never_creates_the_heartbeat :
  forall env st,
    let run := updateWorkerStatus false env st in
    outcome_of run = Ok tt /\
    messages (state_of run) = messages st /\
    length (settings (state_of run)) = length (settings st) /\
    other_settings (state_of run) = other_settings st /\
    (lookup_setting "worker" st = None -> settings (state_of run) = settings st) /\
    (forall row, lookup_setting "worker" st = Some row ->
       lookup_setting "worker" (state_of run)
       = Some (mkSetting "worker" (Some (clock env (tick st))) (s_enabled row))).
Proof.
  intros env st run. subst run. rewrite updateWorkerStatus_run.
  cbn [outcome_of state_of fst snd touch_state messages settings].
  split; [reflexivity|]. split; [reflexivity|].
  split; [apply length_map|].
  split; [apply other_rows_after_touch|].
  unfold lookup_setting, touch_state. cbn [settings].
  change (fun s : Setting => String.eqb (s_type s) "worker") with is_worker.
  split.
  - apply find_worker_none_map.
  - intros row Hrow. rewrite find_worker_after_touch, Hrow. cbn [option_map].
    apply find_some in Hrow. destruct Hrow as [_ Hty].
    unfold is_worker in Hty. apply String.eqb_eq in Hty. rewrite Hty. reflexivity.
Qed.

(** X1 at work: a table without the heartbeat row stays without it. *)
Lemma X1_witness :
  let st := mkState [Sample.bot_row; Sample.screenshot_row] [Sample.aapl] 0 in
  let run := updateWorkerStatus false Sample.env_ok st in
  lookup_setting "worker" st = None /\
  settings (state_of run) = settings st.
Proof.
  split; [reflexivity|].
  exact (proj1 (proj2 (proj2 (proj2 (proj2
           (X1_touch_never_creates_the_heartbeat Sample.env_ok
              (mkState [Sample.bot_row; Sample.screenshot_row] [Sample.aapl] 0))))))
           eq_refl).
Defined.

(** X2.  The bootstrap of the heartbeat, [updateWorkerStatus(true)], is a
    find-or-create: with a row of type [worker] present it leaves the
    settings table exactly as it was, the old time included; with none it
    appends one row of that type holding the time of the call; either way a
    row of type [worker] exists afterwards, the queue and the other rows
    are as before, and a second bootstrap changes nothing. *)
Theorem X2_bootstrap_is_find_or_create :
  forall env st,
    let run := updateWorkerStatus true env st in
    outcome_of run = Ok tt /\
    messages (state_of run) = messages st /\
    other_settings (state_of run) = other_settings st /\
    (forall row, lookup_setting "worker" st = Some row ->
       settings (state_of run) = settings st) /\
    (lookup_setting "worker" st = None ->
       settings (state_of run)
       = settings st
         ++ [mkSetting "worker" (Some (clock env (tick st))) (default_enabled env)]) /\
    lookup_setting "worker" (state_of run) <> None /\
    (forall env', settings (state_of (updateWorkerStatus true env' (state_of run)))
                  = settings (state_of run)).
Proof.
  intros env st run. subst run.
  unfold updateWorkerStatus, bind, now, Setting_findOrCreate_worker, lookup_setting,
    other_settings.
  cbn [outcome_of state_of fst snd settings messages tick app].
  change (fun s : Setting => String.eqb (s_type s) "worker") with is_worker.
  destruct (find is_worker (settings st)) as [row|] eqn:Hfind;
    cbn [settings messages tick].
  - rewrite Hfind. repeat split; try reflexivity; try discriminate.
  - assert (Hnew : find is_worker
                     (settings st
                      ++ [mkSetting "worker" (Some (clock env (tick st)))
                            (default_enabled env)]) <> None).
    { clear. induction (settings st) as [|s l IH]; cbn; [discriminate|].
      destruct (is_worker s); [discriminate | exact IH]. }
    split; [reflexivity|]. split; [reflexivity|].
    split. { rewrite filter_app. cbn. apply app_nil_r. }
    split. { intros row H; discriminate H. }
    split. { reflexivity. }
    split. { exact Hnew. }
    intros env'.
    destruct (find is_worker
                (settings st
                 ++ [mkSetting "worker" (Some (clock env (tick st)))
                       (default_enabled env)])) as [row|];
      [reflexivity | congruence].
Qed.

(** X2 at work: a table without the heartbeat row gets one. *)
Lemma X2_witness :
  let st := mkState [Sample.bot_row] [] 7 in
  let run := updateWorkerStatus true Sample.env_ok st in
  lookup_setting "worker" st = None /\
  settings (state_of run)
  = [Sample.bot_row; mkSetting "worker" (Some Sample.timestamp) false].
Proof.
  split; [reflexivity|].
  exact (proj1 (proj2 (proj2 (proj2 (proj2
           (X2_bootstrap_is_find_or_create Sample.env_ok
              (mkState [Sample.bot_row] [] 7))))))
           eq_refl).
Defined.

Ltac run_browser env :=
  repeat match goal with
         | |- context [browser env ?A ?n ?op] =>
             let E := fresh "Estep" in
             destruct (browser env A n op) eqn:E; cbn
         end.



(** X4.  When [screenshot] returns, it has made all twelve steps, the
    second navigation went to the address that the page gave for the chart
    link, the option clicked was looked up by the timeframe asked for, and
    the value returned is the one the last evaluation read from the page. *)
Theorem X4_screenshot_returns_what_the_page_gave :
  forall env symbol timeframe st image,
    outcome_of (screenshot symbol timeframe env st) = Ok image ->
    exists graph_url,
      browser env string (2 + tick st) EvalChartHref = inr graph_url /\
      browser env string (11 + tick st) EvalImageUrl = inr image /\
      events_of (screenshot symbol timeframe env st)
      = EvScreenshot symbol timeframe
        :: screenshot_steps symbol timeframe graph_url.
Proof.
  intros env symbol timeframe st image.
  unfold screenshot, bind, page, emit, ret. cbn.
  run_browser env; intros H; try discriminate H.
  injection H as H. subst.
  eexists. split; [reflexivity|]. split; reflexivity.
Qed.

(** X4 at work: the page of the samples. *)
Lemma X4_witness :
  outcome_of (screenshot "NASDAQ:AAPL" (Some "1D") Sample.env_ok Sample.st_aapl)
  = Ok Sample.image_url /\
  exists graph_url,
    browser Sample.env_ok string 2 EvalChartHref = inr graph_url /\
    browser Sample.env_ok string 11 EvalImageUrl = inr Sample.image_url /\
    events_of (screenshot "NASDAQ:AAPL" (Some "1D") Sample.env_ok Sample.st_aapl)
    = EvScreenshot "NASDAQ:AAPL" (Some "1D")
      :: screenshot_steps "NASDAQ:AAPL" (Some "1D") graph_url.
Proof.
  split; [reflexivity|].
  exact (X4_screenshot_returns_what_the_page_gave Sample.env_ok "NASDAQ:AAPL"
           (Some "1D") Sample.st_aapl Sample.image_url eq_refl).
Defined.

(* ------------------------------------------------------------------ *)
(** *** What the worker keeps, from the primitives up *)
(* ------------------------------------------------------------------ *)

Section Frame.

Variable R : State -> State -> Prop.
Hypothesis R_refl : forall st, R st st.
Hypothesis R_trans : forall a b c, R a b -> R b c -> R a c.
Hypothesis R_tick :
  forall st n, R st (mkState (settings st) (messages st) n).
Hypothesis R_update :
  forall f id st,
    u_status f <> Some pending ->
    R st (mkState (settings st) (map (apply_fields f id) (messages st)) (tick st)).
Hypothesis R_touch :
  forall ts st,
    R st (mkState (map (set_worker_data ts) (settings st)) (messages st) (tick st)).
Hypothesis R_create :
  forall row st,
    is_worker row = true ->
    R st (mkState (settings st ++ [row]) (messages st) (tick st)).

Lemma keeps_ret A (a : A) : keeps R (ret a).
Proof. intros env st. apply R_refl. Qed.

Lemma keeps_throw A (e : exn) : keeps R (@throw A e).
Proof. intros env st. apply R_refl. Qed.

Lemma keeps_emit e : keeps R (emit e).
Proof. intros env st. apply R_refl. Qed.

Lemma keeps_get_state : keeps R get_state.
Proof. intros env st. apply R_refl. Qed.

Lemma keeps_bind A B (m : M A) (k : A -> M B) :
  keeps R m -> (forall a, keeps R (k a)) -> keeps R (bind m k).
Proof.
  intros Hm Hk env st. specialize (Hm env st). unfold bind.
  destruct (m env st) as [[[a|err] st1] ev1]; cbn in Hm |- *; [|exact Hm].
  specialize (Hk a env st1).
  destruct (k a env st1) as [[r st2] ev2]; cbn in Hk |- *.
  exact (R_trans _ _ _ Hm Hk).
Qed.

Lemma keeps_try_catch A (m : M A) (handler : exn -> M A) :
  keeps R m -> (forall e, keeps R (handler e)) -> keeps R (try_catch m handler).
Proof.
  intros Hm Hh env st. specialize (Hm env st). unfold try_catch.
  destruct (m env st) as [[[a|err] st1] ev1]; cbn in Hm |- *; [exact Hm|].
  specialize (Hh err env st1).
  destruct (handler err env st1) as [[r st2] ev2]; cbn in Hh |- *.
  exact (R_trans _ _ _ Hm Hh).
Qed.

Lemma keeps_for_each A (xs : list A) (body : A -> M unit) :
  (forall x, keeps R (body x)) -> keeps R (for_each xs body).
Proof.
  intros Hbody. induction xs as [|x rest IH]; cbn [for_each].
  - apply keeps_ret.
  - apply keeps_bind; [apply Hbody | intros _; exact IH].
Qed.

Lemma keeps_prop X A (obj : option X) (field : X -> A) name :
  keeps R (prop obj field name).
Proof. destruct obj; [apply keeps_ret | apply keeps_throw]. Qed.

Lemma keeps_method_split sep str : keeps R (method_split sep str).
Proof. destruct str; [apply keeps_ret | apply keeps_throw]. Qed.

Lemma keeps_now : keeps R now.
Proof. intros env st. apply R_tick. Qed.

Lemma keeps_page A (op : page_op A) : keeps R (page op).
Proof. intros env st. apply R_tick. Qed.

Lemma keeps_bot_send bot call : keeps R (bot_send bot call).
Proof. intros env st. apply R_tick. Qed.

Lemma keeps_Message_update f id :
  u_status f <> Some pending -> keeps R (Message_update f id).
Proof. intros Hf env st. apply R_update. exact Hf. Qed.

Lemma keeps_Setting_update_worker ts : keeps R (Setting_update_worker ts).
Proof. intros env st. apply R_touch. Qed.

Lemma keeps_Setting_findOrCreate_worker ts :
  keeps R (Setting_findOrCreate_worker ts).
Proof.
  intros env st. unfold Setting_findOrCreate_worker. cbn [state_of fst snd].
  destruct (find _ (settings st)); [apply R_refl | apply R_create; reflexivity].
Qed.

Ltac frame :=
  repeat first
    [ apply keeps_ret | apply keeps_throw | apply keeps_emit
    | apply keeps_get_state | apply keeps_prop | apply keeps_method_split
    | apply keeps_now | apply keeps_page | apply keeps_bot_send
    | apply keeps_Setting_update_worker
    | apply keeps_Setting_findOrCreate_worker
    | apply keeps_Message_update; cbn; discriminate
    | apply keeps_bind; [|intros ?]
    | apply keeps_try_catch; [|intros ?]
    | apply keeps_for_each; intros ?
    | match goal with
      | |- keeps R (if ?b then _ else _) => destruct b
      end ].

Lemma keeps_updateWorkerStatus initial : keeps R (updateWorkerStatus initial).
Proof. unfold updateWorkerStatus. frame. Qed.

Lemma keeps_screenshot symbol timeframe : keeps R (screenshot symbol timeframe).
Proof. unfold screenshot. frame. Qed.

Lemma keeps_process_channel bot ss id data timeframe symbol channel :
  keeps R (process_channel bot ss id data timeframe symbol channel).
Proof.
  unfold process_channel, acquire_image, dispatch, console_log.
  frame.
Qed.

Lemma keeps_processQueue : keeps R processQueue.
Proof.
  unfold processQueue, process_message, Setting_findOne, Message_findAll_pending,
    console_log.
  frame.
Qed.

Lemma keeps_login : keeps R login.
Proof. unfold login, Setting_findOne, console_log. frame. Qed.

Lemma keeps_loop_iteration : keeps R loop_iteration.
Proof.
  unfold loop_iteration, console_log, sleep.
  apply keeps_bind; [apply keeps_emit | intros _].
  apply keeps_bind; [|intros _; frame].
  apply keeps_try_catch; [apply keeps_processQueue | intros e; apply keeps_emit].
Qed.

Lemma keeps_worker_loop n : keeps R (worker_loop n).
Proof.
  induction n as [|n IH]; cbn [worker_loop].
  - apply keeps_ret.
  - apply keeps_bind; [apply keeps_loop_iteration | intros _; exact IH].
Qed.

Lemma keeps_init n : keeps R (init n).
Proof.
  unfold init, console_log.
  apply keeps_bind; [apply keeps_emit | intros _].
  apply keeps_bind; [apply keeps_updateWorkerStatus | intros _].
  apply keeps_bind; [apply keeps_emit | intros _].
  apply keeps_bind; [apply keeps_login | intros _].
  apply keeps_worker_loop.
Qed.

End Frame.

Section Kept.

Lemma queue_kept_refl st : queue_kept st st.
Proof.
  unfold queue_kept. induction (messages st) as [|r l IH]; constructor; auto.
Qed.

Lemma kept_rows_trans la lb lc :
  Forall2 (fun r r' => payload r' = payload r /\
                       (m_status r' = pending -> m_status r = pending)) la lb ->
  Forall2 (fun r r' => payload r' = payload r /\
                       (m_status r' = pending -> m_status r = pending)) lb lc ->
  Forall2 (fun r r' => payload r' = payload r /\
                       (m_status r' = pending -> m_status r = pending)) la lc.
Proof.
  intros Hab. revert lc.
  induction Hab as [|x y la' lb' [Hp Hs] Hab IH]; intros lc Hbc.
  - inversion Hbc. constructor.
  - inversion Hbc as [|y' z lb'' lc' [Hp' Hs'] Hbc' E1 E2]; subst.
    constructor; [split; [congruence | auto] | exact (IH lc' Hbc')].
Qed.

Lemma queue_kept_trans a b c : queue_kept a b -> queue_kept b c -> queue_kept a c.
Proof. unfold queue_kept. apply kept_rows_trans. Qed.

Lemma queue_kept_update f id st :
  u_status f <> Some pending ->
  queue_kept st (mkState (settings st) (map (apply_fields f id) (messages st)) (tick st)).
Proof.
  intros Hf. unfold queue_kept. cbn [messages].
  induction (messages st) as [|r l IH]; cbn [map]; constructor; [|exact IH].
  unfold apply_fields. destruct (Z.eqb (m_id r) id); [|auto].
  split; [reflexivity|]. cbn [m_status].
  destruct (u_status f) as [s|]; [|auto].
  intros Hs. subst s. congruence.
Qed.

Lemma settings_kept_touch ts st :
  settings_kept st
    (mkState (map (set_worker_data ts) (settings st)) (messages st) (tick st)).
Proof. apply other_rows_after_touch. Qed.

Lemma settings_kept_create row st :
  is_worker row = true ->
  settings_kept st (mkState (settings st ++ [row]) (messages st) (tick st)).
Proof.
  intros Hrow. unfold settings_kept, other_settings. cbn [settings].
  rewrite filter_app. cbn [filter]. rewrite Hrow. apply app_nil_r.
Qed.

Lemma queue_kept_length st st' :
  queue_kept st st' -> length (messages st') = length (messages st).
Proof. intros H. symmetry. exact (Forall2_length H). Qed.

(** The queue is kept by every function of the worker. *)
Lemma queue_kept_by_all :
  keeps queue_kept processQueue /\
  (forall n, keeps queue_kept (worker_loop n)) /\
  (forall n, keeps queue_kept (init n)).
Proof.
  assert (Htick : forall st n, queue_kept st (mkState (settings st) (messages st) n))
    by (intros st n; exact (queue_kept_refl st)).
  assert (Htouch : forall ts st,
             queue_kept st
               (mkState (map (set_worker_data ts) (settings st)) (messages st) (tick st)))
    by (intros ts st; exact (queue_kept_refl st)).
  assert (Hcreate : forall row st, is_worker row = true ->
             queue_kept st (mkState (settings st ++ [row]) (messages st) (tick st)))
    by (intros row st _; exact (queue_kept_refl st)).
  split; [|split; intros n].
  - apply (keeps_processQueue queue_kept queue_kept_refl queue_kept_trans
             Htick queue_kept_update Htouch).
  - apply (keeps_worker_loop queue_kept queue_kept_refl queue_kept_trans
             Htick queue_kept_update Htouch).
  - apply (keeps_init queue_kept queue_kept_refl queue_kept_trans
             Htick queue_kept_update Htouch Hcreate).
Qed.

(** The settings other than the heartbeat are kept by every function of
    the worker. *)
Lemma settings_kept_by_all :
  keeps settings_kept processQueue /\
  (forall n, keeps settings_kept (worker_loop n)) /\
  (forall n, keeps settings_kept (init n)).
Proof.
  assert (Hrefl : forall st, settings_kept st st) by reflexivity.
  assert (Htrans : forall a b c,
             settings_kept a b -> settings_kept b c -> settings_kept a c)
    by (unfold settings_kept; intros a b c H1 H2; congruence).
  assert (Htick : forall st n, settings_kept st (mkState (settings st) (messages st) n))
    by reflexivity.
  assert (Hupdate : forall f id st, u_status f <> Some pending ->
             settings_kept st
               (mkState (settings st) (map (apply_fields f id) (messages st)) (tick st)))
    by reflexivity.
  split; [|split; intros n].
  - apply (keeps_processQueue settings_kept Hrefl Htrans Htick Hupdate
             settings_kept_touch).
  - apply (keeps_worker_loop settings_kept Hrefl Htrans Htick Hupdate
             settings_kept_touch).
  - apply (keeps_init settings_kept Hrefl Htrans Htick Hupdate
             settings_kept_touch settings_kept_create).
Qed.

End Kept.

(** X5.  Whatever the state, the browser and the provider do, and however
    many turns the loop makes, the worker never adds, deletes or reorders a
    row of the queue, never changes the id, data, timeframe or channels of
    one, and never puts back to [pending] a row that had left it; the same
    holds of a single cycle. *)
Theorem X5_worker_keeps_the_queue :
  forall n env st,
    queue_kept st (state_of (init n env st)) /\
    length (messages (state_of (init n env st))) = length (messages st) /\
    queue_kept st (state_of (worker_loop n env st)) /\
    queue_kept st (state_of (processQueue env st)).
Proof.
  intros n env st. destruct queue_kept_by_all as (Hcycle & Hloop & Hinit).
  split; [apply Hinit|]. split; [apply queue_kept_length; apply Hinit|].
  split; [apply Hloop | apply Hcycle].
Qed.


Section Untouched.

Lemma Forall2_map_fixed {A} (P : A -> Prop) (g : A -> A) (l : list A) :
  (forall r, P r -> g r = r) ->
  Forall2 (fun r r' => P r -> r' = r) l (map g l).
Proof. intros Hg. induction l as [|r l IH]; cbn; constructor; auto. Qed.

Lemma Forall2_same {A} (P : A -> Prop) (l : list A) :
  Forall2 (fun r r' => P r -> r' = r) l l.
Proof. induction l as [|r l IH]; constructor; auto. Qed.

Lemma Forall2_weaken_in {A} (P Q : A -> Prop) (l k : list A) :
  (forall r, In r l -> Q r -> P r) ->
  Forall2 (fun r r' => P r -> r' = r) l k ->
  Forall2 (fun r r' => Q r -> r' = r) l k.
Proof.
  intros HPQ H. induction H as [|r r' l k Hr H IH]; constructor.
  - intros Hq. apply Hr. apply HPQ; [left; reflexivity | exact Hq].
  - apply IH. intros x Hx. apply HPQ. right. exact Hx.
Qed.

Lemma NoDup_map_injective {A B} (f : A -> B) (l : list A) x y :
  NoDup (map f l) -> In x l -> In y l -> f x = f y -> x = y.
Proof.
  induction l as [|a l IH]; cbn; intros Hnd Hx Hy E; [contradiction|].
  inversion Hnd as [|b k Hnotin Hnd']; subst.
  destruct Hx as [Hx|Hx], Hy as [Hy|Hy]; subst.
  - reflexivity.
  - exfalso. apply Hnotin. rewrite E. apply in_map. exact Hy.
  - exfalso. apply Hnotin. rewrite <- E. apply in_map. exact Hx.
  - apply IH; assumption.
Qed.

(** In any cycle, a row whose id is not the id of a pending row comes out
    as it went in. *)
Lemma processQueue_fetched_only env st :
  Forall2
    (fun r r' => ~ In (m_id r) (map m_id (pending_messages st)) -> r' = r)
    (messages st) (messages (state_of (processQueue env st))).
Proof.
  rewrite processQueue_run.
  destruct (lookup_setting "telegram:bot" st) as [bot_settings|];
    [|apply Forall2_same].
  destruct (lookup_setting "tradingview:screenshot" st) as [ss|].
  - destruct (messages_loop_spec env (s_data bot_settings) ss (pending_messages st)
                (touch_state env st))
      as (st' & evs & g & Hrun & _ & _ & _ & _ & Hm & _ & Hfix & _).
    rewrite Hrun. cbn [state_of fst snd]. rewrite Hm.
    cbn [touch_state messages]. apply Forall2_map_fixed. exact Hfix.
  - rewrite messages_loop_no_screenshot_settings.
    destruct (pending_messages st); apply Forall2_same.
Qed.

End Untouched.

(** X7.  In any cycle, ended or aborted, a row of the queue whose id is not
    the id of a row fetched as pending comes out exactly as it went in;
    when the ids of the table are distinct, so does every row that was not
    pending when the cycle began. *)
Theorem X7_cycle_touches_only_the_rows_it_fetched :
  forall env st,
    Forall2
      (fun r r' => ~ In (m_id r) (map m_id (pending_messages st)) -> r' = r)
      (messages st) (messages (state_of (processQueue env st))) /\
    (NoDup (map m_id (messages st)) ->
     Forall2 (fun r r' => m_status r <> pending -> r' = r)
       (messages st) (messages (state_of (processQueue env st)))).
Proof.
  intros env st. split; [apply processQueue_fetched_only|].
  intros Hnd.
  apply (Forall2_weaken_in
           (fun r => ~ In (m_id r) (map m_id (pending_messages st)))
           (fun r => m_status r <> pending));
    [|apply processQueue_fetched_only].
  intros r Hr Hstatus Hin. apply in_map_iff in Hin.
  destruct Hin as (p & Hid & Hp). unfold pending_messages in Hp.
  apply filter_In in Hp. destruct Hp as [Hp Hpending].
  assert (p = r) by (apply (NoDup_map_injective m_id (messages st)); assumption).
  subst p. apply Hstatus. destruct (m_status r); [reflexivity | discriminate..].
Qed.

(** X7 at work: a row already [success] next to a pending one. *)
Lemma X7_witness :
  let done := mkMessage 9 "ETHUSD Hold" None "chan9" success (Some "{ok:true}") in
  let st := mkState (settings Sample.st_aapl) [done; Sample.aapl] 0 in
  NoDup (map m_id (messages st)) /\
  Forall2 (fun r r' => m_status r <> pending -> r' = r)
    (messages st)
    (messages (state_of (processQueue (Sample.env_channel_down "chan9") st))).
Proof.
  assert (H : NoDup (map m_id
                 [mkMessage 9 "ETHUSD Hold" None "chan9" success (Some "{ok:true}");
                  Sample.aapl])).
  { cbn. constructor; [intros [H|[]]; discriminate H|].
    constructor; [intros [] | constructor]. }
  split; [exact H|].
  exact (proj2 (X7_cycle_touches_only_the_rows_it_fetched
                  (Sample.env_channel_down "chan9")
                  (mkState (settings Sample.st_aapl)
                     [mkMessage 9 "ETHUSD Hold" None "chan9" success (Some "{ok:true}");
                      Sample.aapl] 0)) H).
Defined.

(** X8.  After a full cycle (both settings rows present, the ids of the
    pending rows distinct), the log of every row of a pending message is
    the record of its last send: the serialized response when that send
    returned, the serialized error when it raised.  The error of a failed
    screenshot, written to the log on the way, never outlives the cycle. *)
Theorem X8_final_log_is_the_last_send :
  forall env st bot_settings ss m,
    lookup_setting "telegram:bot" st = Some bot_settings ->
    lookup_setting "tradingview:screenshot" st = Some ss ->
    NoDup (map m_id (pending_messages st)) ->
    In m (pending_messages st) ->
    let run := processQueue env st in
    exists call o,
      last_of (dispatches (message_events (m_id m) (events_of run))) = Some (call, o) /\
      forall row, In row (messages (state_of run)) -> m_id row = m_id m ->
        m_log row = Some (log_of_outcome o).
Proof.
  intros env st bot_settings ss m Hbot Hss Hnd Hin run. subst run.
  destruct (processQueue_spec env st bot_settings ss Hbot Hss)
    as (st' & evs & g & Hrun & _ & _ & _ & _ & _ & _ & _ & Hper).
  destruct (Hper Hnd m Hin) as (_ & _ & call & o & Hlast & Hrows).
  rewrite Hrun. cbn [events_of state_of fst snd]. rewrite message_events_cycle.
  exists call, o. split; [exact Hlast|].
  intros row Hrow Hid. destruct (Hrows row Hrow Hid) as [_ Hlog].
  rewrite Hlog. destruct o; reflexivity.
Qed.

(** X8 at work: the browser is down, the provider works; the log ends as
    the response of the last send, not as the time-out of the browser. *)
Lemma X8_witness :
  let env := Sample.env_browser_down in
  let st := Sample.st_aapl in
  let run := processQueue env st in
  (lookup_setting "telegram:bot" st = Some Sample.bot_row /\
   lookup_setting "tradingview:screenshot" st = Some Sample.screenshot_row /\
   NoDup (map m_id (pending_messages st)) /\
   In Sample.aapl (pending_messages st)) /\
  exists call o,
    last_of (dispatches (message_events 1 (events_of run))) = Some (call, o) /\
    forall row, In row (messages (state_of run)) -> m_id row = 1%Z ->
      m_log row = Some (log_of_outcome o).
Proof.
  assert (H3 : NoDup (map m_id (pending_messages Sample.st_aapl)))
    by (cbn; constructor; [intros [] | constructor]).
  assert (H4 : In Sample.aapl (pending_messages Sample.st_aapl))
    by (cbn; left; reflexivity).
  split; [split; [reflexivity | split; [reflexivity | split; assumption]]|].
  exact (X8_final_log_is_the_last_send Sample.env_browser_down Sample.st_aapl
           Sample.bot_row Sample.screenshot_row Sample.aapl eq_refl eq_refl H3 H4).
Defined.

(** X9.  With screenshots enabled, the calls of [screenshot] in a full
    cycle are, in the order of the two loops, one per pending message and
    channel, and the timeframe of each is the one of its message when the
    message has one that is not the empty string, the [data] of the
    screenshot row otherwise, [null] included. *)
Theorem X9_timeframe_override_or_default :
  forall env st bot_settings ss,
    lookup_setting "telegram:bot" st = Some bot_settings ->
    lookup_setting "tradingview:screenshot" st = Some ss ->
    s_enabled ss = true ->
    map snd (screenshot_calls (events_of (processQueue env st)))
    = map (fun mc => timeframe_asked (fst mc) (s_data ss))
        (owed (pending_messages st)).
Proof.
  intros env st bot_settings ss Hbot Hss Hen.
  destruct (processQueue_spec env st bot_settings ss Hbot Hss)
    as (st' & evs & g & Hrun & _ & _ & Hsc & _).
  rewrite Hrun. cbn [events_of snd]. rewrite screenshot_calls_app, Hsc.
  unfold owed_screenshots. rewrite Hen. cbn [cycle_prefix screenshot_calls app].
  rewrite map_map. apply map_ext. intros [m channel]. cbn [fst snd].
  unfold timeframe_asked, JS.or, JS.truthy.
  destruct (m_timeframe m) as [[|c t]|]; reflexivity.
Qed.

(** X9 at work: one message without a timeframe, one with "4h". *)
Lemma X9_witness :
  let env := Sample.env_ok in
  let st := Sample.st_two in
  (lookup_setting "telegram:bot" st = Some Sample.bot_row /\
   lookup_setting "tradingview:screenshot" st = Some Sample.screenshot_row /\
   s_enabled Sample.screenshot_row = true) /\
  map snd (screenshot_calls (events_of (processQueue env st)))
  = [Some "1D"; Some "1D"; Some "4h"].
Proof.
  split; [split; [reflexivity | split; reflexivity]|].
  exact (X9_timeframe_override_or_default Sample.env_ok Sample.st_two
           Sample.bot_row Sample.screenshot_row eq_refl eq_refl eq_refl).
Defined.

(** X10.  With screenshots disabled, a full cycle never calls [screenshot],
    and its sends are, in the order of the two loops, one plain text
    message per pending message and channel, carrying the whole [data]. *)
Theorem X10_disabled_means_plain_text :
  forall env st bot_settings ss,
    lookup_setting "telegram:bot" st = Some bot_settings ->
    lookup_setting "tradingview:screenshot" st = Some ss ->
    s_enabled ss = false ->
    screenshot_calls (events_of (processQueue env st)) = [] /\
    map fst (dispatches (events_of (processQueue env st)))
    = map (fun mc => SendMessage (snd mc) (m_data (fst mc)))
        (owed (pending_messages st)).
Proof.
  intros env st bot_settings ss Hbot Hss Hen.
  destruct (processQueue_spec env st bot_settings ss Hbot Hss)
    as (st' & evs & g & Hrun & _ & Hd & Hsc & _).
  rewrite Hrun. cbn [events_of snd].
  rewrite screenshot_calls_app, dispatches_app, Hsc.
  unfold owed_screenshots. rewrite Hen.
  cbn [cycle_prefix screenshot_calls dispatches app]. split; [reflexivity|].
  induction Hd as [|mc d l k [image [Hcall _]] Hrest IH]; [reflexivity|].
  cbn [map]. rewrite IH, Hcall. unfold dispatch_call. rewrite Hen. reflexivity.
Qed.

(** X10 at work: the second scenario of the specification. *)
Lemma X10_witness :
  let env := Sample.env_ok in
  let st := Sample.st_aapl_off in
  (lookup_setting "telegram:bot" st = Some Sample.bot_row /\
   lookup_setting "tradingview:screenshot" st = Some Sample.screenshot_row_off /\
   s_enabled Sample.screenshot_row_off = false) /\
  screenshot_calls (events_of (processQueue env st)) = [] /\
  map fst (dispatches (events_of (processQueue env st)))
  = [SendMessage "chan1" "NASDAQ:AAPL Buy now";
     SendMessage "chan2" "NASDAQ:AAPL Buy now"].
Proof.
  split; [split; [reflexivity | split; reflexivity]|].
  exact (X10_disabled_means_plain_text Sample.env_ok Sample.st_aapl_off
           Sample.bot_row Sample.screenshot_row_off eq_refl eq_refl eq_refl).
Defined.

Lemma idle_cycle_run env st bot_settings :
  lookup_setting "telegram:bot" st = Some bot_settings ->
  pending_messages st = [] ->
  processQueue env st
  = (Ok tt, touch_state env st,
     [EvTouch (clock env (tick st));
      EvFindOne "telegram:bot";
      EvFindOne "tradingview:screenshot";
      EvFindAllPending;
      EvConsole (LogPendingMessages 0)]).
Proof.
  intros Hbot Hidle.
  rewrite processQueue_run, Hbot. unfold cycle_prefix. rewrite Hidle. reflexivity.
Qed.

(** X11.  A cycle that finds no pending message, the row of type
    [telegram:bot] present, ends normally whether the screenshot row exists
    or not; it makes no call on the browser or the provider and no update
    of the queue: its trace is the touch, the three reads and the line
    "Pending messages: 0", and only the heartbeat and the clock moved. *)
Theorem X11_idle_cycle :
  forall env st bot_settings,
    lookup_setting "telegram:bot" st = Some bot_settings ->
    pending_messages st = [] ->
    processQueue env st
    = (Ok tt, touch_state env st,
       [EvTouch (clock env (tick st));
        EvFindOne "telegram:bot";
        EvFindOne "tradingview:screenshot";
        EvFindAllPending;
        EvConsole (LogPendingMessages 0)]).
Proof.
  intros env st bot_settings. apply idle_cycle_run.
Qed.

(** X11 at work: an empty queue and no screenshot row. *)
Lemma X11_witness :
  let st := Sample.st_no_screenshot_idle in
  (lookup_setting "telegram:bot" st = Some Sample.bot_row /\
   pending_messages st = []) /\
  processQueue Sample.env_ok st
  = (Ok tt, touch_state Sample.env_ok st,
     [EvTouch Sample.timestamp;
      EvFindOne "telegram:bot";
      EvFindOne "tradingview:screenshot";
      EvFindAllPending;
      EvConsole (LogPendingMessages 0)]).
Proof.
  split; [split; reflexivity|].
  exact (X11_idle_cycle Sample.env_ok Sample.st_no_screenshot_idle Sample.bot_row
           eq_refl eq_refl).
Defined.

Section Pieces.

Lemma split_join sep s : join sep (JS.split sep s) = s.
Proof.
  induction s as [|c rest IH]; [reflexivity|]. cbn [JS.split].
  destruct (Ascii.eqb c sep) eqn:E.
  - apply Ascii.eqb_eq in E. subst c.
    pose proof (split_nonempty sep rest) as Hne.
    cbn [join]. destruct (JS.split sep rest) as [|w ws] eqn:Es; [congruence|].
    rewrite IH. reflexivity.
  - pose proof (split_nonempty sep rest) as Hne.
    destruct (JS.split sep rest) as [|w ws] eqn:Es; [congruence|].
    cbn [join] in IH |- *. destruct ws as [|w' ws'].
    + rewrite IH. reflexivity.
    + cbn [String.append]. rewrite IH. reflexivity.
Qed.

Lemma split_pieces_clean sep s :
  Forall (fun piece => JS.contains sep piece = false) (JS.split sep s).
Proof.
  induction s as [|c rest IH]; [repeat constructor|]. cbn [JS.split].
  destruct (Ascii.eqb c sep) eqn:E.
  - constructor; [reflexivity | exact IH].
  - destruct (JS.split sep rest) as [|w ws].
    + constructor; [cbn; rewrite E; reflexivity | constructor].
    + inversion IH as [|x l Hw Hws]; subst.
      constructor; [cbn; rewrite E; exact Hw | exact Hws].
Qed.

Lemma split_count sep s : length (JS.split sep s) = S (count_char sep s).
Proof.
  induction s as [|c rest IH]; [reflexivity|]. cbn [JS.split count_char].
  destruct (Ascii.eqb c sep).
  - cbn. rewrite IH. reflexivity.
  - pose proof (split_nonempty sep rest) as Hne.
    destruct (JS.split sep rest) as [|w ws]; [congruence|]. exact IH.
Qed.

Lemma owed_channels msgs : map snd (owed msgs) = flat_map channels_of msgs.
Proof.
  unfold owed. induction msgs as [|m l IH]; [reflexivity|].
  cbn [flat_map]. rewrite map_app, IH, map_map. cbn [snd].
  rewrite map_id. reflexivity.
Qed.

End Pieces.

(** X12.  The channels of a message are the pieces of its [channels] field
    between the commas, nothing filtered: joined by commas they give the
    field back, none holds a comma, and there is one more of them than
    there are commas, so that an empty field is one empty channel.  A full
    cycle sends to exactly these, in order, message after message. *)
Theorem X12_one_send_per_piece_of_channels :
  (forall m,
     join comma (channels_of m) = m_channels m /\
     Forall (fun channel => JS.contains comma channel = false) (channels_of m) /\
     length (channels_of m) = S (count_char comma (m_channels m))) /\
  (forall env st bot_settings ss,
     lookup_setting "telegram:bot" st = Some bot_settings ->
     lookup_setting "tradingview:screenshot" st = Some ss ->
     map (fun d => call_channel (fst d)) (dispatches (events_of (processQueue env st)))
     = flat_map channels_of (pending_messages st)).
Proof.
  split.
  - intros m. unfold channels_of.
    split; [apply split_join|]. split; [apply split_pieces_clean | apply split_count].
  - intros env st bot_settings ss Hbot Hss.
    destruct (processQueue_spec env st bot_settings ss Hbot Hss)
      as (st' & evs & g & Hrun & _ & Hd & _).
    rewrite Hrun. cbn [events_of snd]. rewrite dispatches_app.
    cbn [cycle_prefix dispatches app].
    rewrite <- owed_channels.
    induction Hd as [|mc d l k [image [Hcall _]] Hrest IH]; [reflexivity|].
    cbn [map]. rewrite IH, Hcall. unfold dispatch_call.
    destruct (s_enabled ss); reflexivity.
Qed.

(** X12 at work: a doubled comma and a repeated channel. *)
Lemma X12_witness :
  let m := mkMessage 4 "AAPL Buy" None "chan1,,chan1" pending None in
  let st := mkState (settings Sample.st_aapl) [m] 0 in
  (lookup_setting "telegram:bot" st = Some Sample.bot_row /\
   lookup_setting "tradingview:screenshot" st = Some Sample.screenshot_row) /\
  map (fun d => call_channel (fst d))
    (dispatches (events_of (processQueue Sample.env_ok st)))
  = ["chan1"; ""; "chan1"].
Proof.
  split; [split; reflexivity|].
  exact (proj2 X12_one_send_per_piece_of_channels Sample.env_ok
           (mkState (settings Sample.st_aapl)
              [mkMessage 4 "AAPL Buy" None "chan1,,chan1" pending None] 0)
           Sample.bot_row Sample.screenshot_row eq_refl eq_refl).
Defined.

Section AfterScreenshot.

Lemma channels_after_shot ss (served : list (Message * string)) :
  forall pre post,
    concat (map (fun _ => channel_beats ss) served) = pre ++ Shot :: post ->
    exists later, post = Touch :: Send :: Touch :: later.
Proof.
  induction served as [|x rest IH]; intros pre post E.
  - destruct pre; discriminate E.
  - cbn [map concat] in E. unfold channel_beats at 1 in E.
    destruct (s_enabled ss).
    + destruct pre as [|p1 [|p2 [|p3 [|p4 pre']]]]; cbn in E;
        try discriminate E.
      * injection E as E. eexists. symmetry. exact E.
      * injection E as _ _ _ _ E. exact (IH pre' post E).
    + destruct pre as [|p1 [|p2 pre']]; cbn in E; try discriminate E.
      injection E as _ _ E. exact (IH pre' post E).
Qed.

End AfterScreenshot.

(** X13.  In every cycle, each screenshot attempt is directly followed by a
    touch of the heartbeat, then by the send it was made for, then by
    another touch: no attempt is left without its send, whatever the
    attempt or the send come to. *)
Theorem X13_every_screenshot_is_followed_by_its_send :
  forall env st pre post,
    beats (events_of (processQueue env st)) = pre ++ Shot :: post ->
    exists later, post = Touch :: Send :: Touch :: later.
Proof.
  intros env st pre post E.
  destruct (processQueue_beats env st) as (ss & served & Hb).
  rewrite Hb in E.
  destruct pre as [|p1 [|p2 pre']]; cbn in E; try discriminate E.
  injection E as _ _ E. exact (channels_after_shot ss served pre' post E).
Qed.

(** X13 at work: the first attempt of the scenario of the specification. *)
Lemma X13_witness :
  let post := [Touch; Send; Touch; Shot; Touch; Send; Touch] in
  beats (events_of (processQueue Sample.env_browser_down Sample.st_aapl))
  = [Touch; Poll] ++ Shot :: post /\
  exists later, post = Touch :: Send :: Touch :: later.
Proof.
  split; [reflexivity|].
  exact (X13_every_screenshot_is_followed_by_its_send Sample.env_browser_down
           Sample.st_aapl [Touch; Poll]
           [Touch; Send; Touch; Shot; Touch; Send; Touch] eq_refl).
Defined.

(** X14.  The address of the symbol page outside the form
    EXCHANGE:TICKER.  Of a symbol with a second colon, what follows that
    colon is dropped: the address is built from the piece between the two
    colons and the exchange.  A symbol that ends with its first colon, or
    begins with a colon, gets the bare form, colon included. *)
Theorem X14_symbol_page_address_edges :
  (forall exchange ticker rest,
     exchange <> "" -> ticker <> "" ->
     JS.contains colon exchange = false ->
     JS.contains colon ticker = false ->
     screenshot_url (exchange +++ ":" +++ ticker +++ ":" +++ rest)
     = "https://www.tradingview.com/symbols/" +++ ticker
       +++ "/?exchange=" +++ exchange) /\
  (forall exchange,
     JS.contains colon exchange = false ->
     screenshot_url (exchange +++ ":")
     = "https://www.tradingview.com/symbols/" +++ (exchange +++ ":") +++ "/") /\
  (forall rest,
     screenshot_url (":" +++ rest)
     = "https://www.tradingview.com/symbols/" +++ (":" +++ rest) +++ "/").
Proof.
  split; [|split].
  - intros exchange ticker rest He Ht Hce Hct. unfold screenshot_url.
    change (":" +++ ticker +++ ":" +++ rest)
      with (String colon (ticker +++ String colon rest)).
    rewrite (split_app_sep colon exchange _ Hce), (split_app_sep colon ticker _ Hct).
    cbn [nth_error]. rewrite (truthy_nonempty _ He), (truthy_nonempty _ Ht).
    reflexivity.
  - intros exchange Hc. unfold screenshot_url.
    change (exchange +++ ":") with (exchange +++ String colon EmptyString).
    rewrite (split_app_sep colon exchange _ Hc). cbn [JS.split nth_error].
    change (JS.truthy (Some EmptyString)) with false.
    rewrite andb_false_r. reflexivity.
  - intros rest. unfold screenshot_url.
    change (":" +++ rest) with ("" +++ String colon rest).
    rewrite (split_app_sep colon "" rest eq_refl).
    cbn [nth_error]. change (JS.truthy (Some EmptyString)) with false.
    cbn [andb].
    destruct (JS.split colon rest); reflexivity.
Qed.

(** X14 at work: a futures contract with a second colon. *)
Lemma X14_witness :
  ("CME" <> "" /\ "ES" <> "" /\
   JS.contains colon "CME" = false /\ JS.contains colon "ES" = false) /\
  screenshot_url "CME:ES:2021"
  = "https://www.tradingview.com/symbols/ES/?exchange=CME".
Proof.
  assert (He : "CME" <> "") by discriminate.
  assert (Ht : "ES" <> "") by discriminate.
  split; [split; [exact He | split; [exact Ht | split; reflexivity]]|].
  exact (proj1 X14_symbol_page_address_edges "CME" "ES" "2021" He Ht eq_refl eq_refl).
Defined.

Section LoginTrace.

Variable env : Env.

Ltac login_stopped_after k :=
  solve [ exists k; eexists; eexists;
          split; [lia|]; split; [reflexivity|];
          intros Hreport; first [ reflexivity | exfalso; eapply Hreport; reflexivity ] ].

Lemma login_run st cs data :
  lookup_setting "tradingview:credentials" st = Some cs ->
  s_enabled cs = true ->
  s_data cs = Some data ->
  exists k line st',
    k <= 7 /\
    login env st
    = (Ok tt, st',
       EvFindOne "tradingview:credentials"
       :: firstn k (login_steps (email_of data) (password_of data))
          ++ [EvConsole line]) /\
    ((forall err, line <> LogLoginFailed err) -> k = 7).
Proof.
  unfold lookup_setting. intros Hcs Hen Hdata.
  unfold login, Setting_findOne, emit, get_state. unfold bind at 1 2 3.
  unfold ret at 1. cbn [app]. rewrite Hcs. cbn [prop]. unfold bind at 1.
  unfold ret at 1. cbn [app]. rewrite Hen.
  unfold try_catch. rewrite Hdata.
  unfold bind, page, method_split, console_log, emit, ret, email_of, password_of.
  cbn -[JS.split].
  repeat match goal with
         | |- context [browser env ?A ?n ?op] =>
             destruct (browser env A n op); cbn -[JS.split]
         | |- context [negb ?b] => destruct b; cbn -[JS.split]
         end;
    first [ login_stopped_after 1 | login_stopped_after 2 | login_stopped_after 3
          | login_stopped_after 4 | login_stopped_after 5 | login_stopped_after 6
          | login_stopped_after 7 ].
Qed.

(** An enabled login with credentials at hand: the steps made are the first
    [k] of the seven, followed by one line of report. *)
Lemma login_trace st cs data :
  lookup_setting "tradingview:credentials" st = Some cs ->
  s_enabled cs = true ->
  s_data cs = Some data ->
  exists k line,
    k <= 7 /\
    outcome_of (login env st) = Ok tt /\
    events_of (login env st)
    = EvFindOne "tradingview:credentials"
      :: firstn k (login_steps (email_of data) (password_of data))
         ++ [EvConsole line] /\
    ((forall err, line <> LogLoginFailed err) -> k = 7).
Proof.
  intros Hcs Hen Hdata.
  destruct (login_run st cs data Hcs Hen Hdata) as (k & line & st' & Hk & Hrun & Hrep).
  exists k, line. rewrite Hrun. repeat split; assumption.
Qed.


End LoginTrace.



(** X16.  The credentials are cut at colons: the email typed is the part of
    the data before its first colon, the password the part between the
    first colon and the second, so that a password holding a colon is typed
    only up to that colon; data without any colon gives the whole of it as
    email and no password at all. *)
Theorem X16_credentials_are_cut_at_colons :
  (forall email password,
     JS.contains colon email = false ->
     JS.contains colon password = false ->
     email_of (email +++ ":" +++ password) = Some email /\
     password_of (email +++ ":" +++ password) = Some password /\
     forall rest,
       email_of (email +++ ":" +++ password +++ ":" +++ rest) = Some email /\
       password_of (email +++ ":" +++ password +++ ":" +++ rest) = Some password) /\
  (forall data,
     JS.contains colon data = false ->
     email_of data = Some data /\ password_of data = None) /\
  (forall env st cs email password rest,
     lookup_setting "tradingview:credentials" st = Some cs ->
     s_enabled cs = true ->
     s_data cs = Some (email +++ ":" +++ password +++ ":" +++ rest) ->
     JS.contains colon email = false ->
     JS.contains colon password = false ->
     exists k line,
       events_of (login env st)
       = EvFindOne "tradingview:credentials"
         :: firstn k (login_steps (Some email) (Some password))
            ++ [EvConsole line]).
Proof.
  assert (Hcut : forall email password,
             JS.contains colon email = false ->
             JS.contains colon password = false ->
             (email_of (email +++ ":" +++ password) = Some email /\
              password_of (email +++ ":" +++ password) = Some password) /\
             forall rest,
               email_of (email +++ ":" +++ password +++ ":" +++ rest) = Some email /\
               password_of (email +++ ":" +++ password +++ ":" +++ rest)
               = Some password).
  { intros email password He Hp. unfold email_of, password_of. split.
    - change (":" +++ password) with (String colon password).
      rewrite (split_app_sep colon email _ He), (split_without colon password Hp).
      split; reflexivity.
    - intros rest.
      change (":" +++ password +++ ":" +++ rest)
        with (String colon (password +++ String colon rest)).
      rewrite (split_app_sep colon email _ He), (split_app_sep colon password _ Hp).
      split; reflexivity. }
  split; [|split].
  - intros email password He Hp. destruct (Hcut email password He Hp) as [[H1 H2] H3].
    split; [exact H1|]. split; [exact H2 | exact H3].
  - intros data Hc. unfold email_of, password_of.
    rewrite (split_without colon data Hc). split; reflexivity.
  - intros env st cs email password rest Hcs Hen Hdata He Hp.
    destruct (login_trace env st cs _ Hcs Hen Hdata) as (k & line & _ & _ & Hev & _).
    destruct (Hcut email password He Hp) as [_ Hrest].
    destruct (Hrest rest) as [H1 H2]. rewrite H1, H2 in Hev.
    exists k, line. exact Hev.
Qed.

(** X16 at work: a password with a colon in it. *)
Lemma X16_witness :
  (JS.contains colon "trader@example.com" = false /\
   JS.contains colon "pa" = false) /\
  email_of "trader@example.com:pa:ss" = Some "trader@example.com" /\
  password_of "trader@example.com:pa:ss" = Some "pa".
Proof.
  split; [split; reflexivity|].
  exact (proj2 (proj2 (proj1 X16_credentials_are_cut_at_colons
                         "trader@example.com" "pa" eq_refl eq_refl)) "ss").
Defined.

(** X17.  When the login has made all seven steps, its report tells what
    the last of them, the look for the error dialog, came to: "Login
    (SUCCESS)" when no dialog was found, "Login (INVALID)" when one was,
    "Login (FAILED)" with the error when the look itself raised. *)
Theorem X17_login_report_follows_the_dialog :
  forall env st cs data line,
    lookup_setting "tradingview:credentials" st = Some cs ->
    s_enabled cs = true ->
    s_data cs = Some data ->
    events_of (login env st)
    = EvFindOne "tradingview:credentials"
      :: login_steps (email_of data) (password_of data) ++ [EvConsole line] ->
    line = match browser env bool (6 + tick st) EvalLoginFailed with
           | inr false => LogLoginSuccess (Some data)
           | inr true => LogLoginInvalid (Some data)
           | inl err => LogLoginFailed err
           end.
Proof.
  unfold lookup_setting. intros env st cs data line Hcs Hen Hdata.
  unfold login, Setting_findOne, emit, get_state. unfold bind at 1 2 3.
  unfold ret at 1. cbn [app]. rewrite Hcs. cbn [prop]. unfold bind at 1.
  unfold ret at 1. cbn [app]. rewrite Hen.
  unfold try_catch. rewrite Hdata.
  unfold bind, page, method_split, console_log, emit, ret, email_of, password_of.
  cbn -[JS.split].
  repeat match goal with
         | |- context [browser env ?A ?n ?op] =>
             destruct (browser env A n op); cbn -[JS.split]
         | |- context [negb ?b] => destruct b; cbn -[JS.split]
         end;
    intros H; try discriminate H;
    apply (f_equal (fun l => nth 8 l (EvSleep 0))) in H; cbn in H;
    injection H as H; symmetry; exact H.
Qed.

(** X17 at work: every step works and no dialog shows. *)
Lemma X17_witness :
  let env := Sample.env_ok in
  let st := Sample.st_aapl in
  let data := "trader@example.com:secret" in
  (lookup_setting "tradingview:credentials" st = Some Sample.credentials_row /\
   s_enabled Sample.credentials_row = true /\
   s_data Sample.credentials_row = Some data /\
   events_of (login env st)
   = EvFindOne "tradingview:credentials"
     :: login_steps (email_of data) (password_of data)
        ++ [EvConsole (LogLoginSuccess (Some data))]) /\
  LogLoginSuccess (Some data)
  = match browser env bool (6 + tick st) EvalLoginFailed with
    | inr false => LogLoginSuccess (Some data)
    | inr true => LogLoginInvalid (Some data)
    | inl err => LogLoginFailed err
    end.
Proof.
  split; [split; [reflexivity | split; [reflexivity | split; reflexivity]]|].
  exact (X17_login_report_follows_the_dialog Sample.env_ok Sample.st_aapl
           Sample.credentials_row "trader@example.com:secret"
           (LogLoginSuccess (Some "trader@example.com:secret"))
           eq_refl eq_refl eq_refl eq_refl).
Defined.

Section Blocked.

Variable env : Env.

Lemma lookup_after_touch type st :
  type <> "worker" ->
  lookup_setting type (touch_state env st) = lookup_setting type st.
Proof. intros H. unfold lookup_setting, touch_state. cbn [settings]. apply find_after_touch. exact H. Qed.

Lemma blocked_after_touch st : blocked st -> blocked (touch_state env st).
Proof.
  unfold blocked. rewrite !lookup_after_touch by discriminate.
  intros H. exact H.
Qed.

Lemma blocked_cycle st :
  blocked st ->
  exists err evs,
    processQueue env st = (Throw err, touch_state env st, evs) /\
    dispatches evs = [] /\ screenshot_calls evs = [] /\ message_updates evs = [].
Proof.
  intros Hb. unfold blocked in Hb. rewrite processQueue_run.
  destruct (lookup_setting "telegram:bot" st) as [bot_settings|] eqn:Hbot.
  - destruct Hb as [Hb | [Hss Hp]]; [discriminate Hb|].
    rewrite Hss, messages_loop_no_screenshot_settings.
    destruct (pending_messages st) as [|m rest] eqn:E; [congruence|].
    eexists _, _. split; [reflexivity|]. repeat split.
  - eexists _, _. split; [reflexivity|]. repeat split.
Qed.

Lemma blocked_loop n :
  forall st,
    blocked st ->
    outcome_of (worker_loop n env st) = Ok tt /\
    dispatches (events_of (worker_loop n env st)) = [] /\
    screenshot_calls (events_of (worker_loop n env st)) = [] /\
    message_updates (events_of (worker_loop n env st)) = [] /\
    messages (state_of (worker_loop n env st)) = messages st /\
    blocked (state_of (worker_loop n env st)).
Proof.
  induction n as [|n IH]; intros st Hb.
  - cbn. repeat split. exact Hb.
  - cbn [worker_loop]. unfold bind. rewrite loop_iteration_run.
    destruct (blocked_cycle st Hb) as (err & evs & Hrun & Hd & Hs & Hu).
    rewrite Hrun. cbn [state_of outcome_of events_of fst snd failure_report].
    destruct (IH (touch_state env st) (blocked_after_touch st Hb))
      as (Hok & Hd' & Hs' & Hu' & Hm & Hb').
    destruct (worker_loop n env (touch_state env st)) as [[r st'] evs'].
    cbn [state_of outcome_of events_of fst snd] in *.
    split; [exact Hok|].
    cbn [app dispatches screenshot_calls message_updates].
    rewrite !dispatches_app, !screenshot_calls_app, !message_updates_app.
    rewrite Hd, Hs, Hu, Hd', Hs', Hu'. cbn.
    repeat split; assumption.
Qed.

End Blocked.

(** X18.  The worker never mends its configuration: from a state in which
    the bot row is missing, or the screenshot row is missing while a
    message waits, every turn of the loop raises in the same place, and
    however many turns are made the worker makes no send, no screenshot and
    no update of the queue, which stays as it was. *)
Theorem X18_blocked_worker_never_sends :
  forall n env st,
    blocked st ->
    outcome_of (worker_loop n env st) = Ok tt /\
    dispatches (events_of (worker_loop n env st)) = [] /\
    screenshot_calls (events_of (worker_loop n env st)) = [] /\
    message_updates (events_of (worker_loop n env st)) = [] /\
    messages (state_of (worker_loop n env st)) = messages st /\
    blocked (state_of (worker_loop n env st)).
Proof. intros n env st. apply blocked_loop. Qed.

(** X18 at work: no screenshot row, one message pending, five turns. *)
Lemma X18_witness :
  let run := worker_loop 5 Sample.env_ok Sample.st_no_screenshot in
  blocked Sample.st_no_screenshot /\
  outcome_of run = Ok tt /\
  dispatches (events_of run) = [] /\
  screenshot_calls (events_of run) = [] /\
  message_updates (events_of run) = [] /\
  messages (state_of run) = messages Sample.st_no_screenshot /\
  blocked (state_of run).
Proof.
  assert (H : blocked Sample.st_no_screenshot)
    by (right; split; [reflexivity | discriminate]).
  split; [exact H|].
  exact (X18_blocked_worker_never_sends 5 Sample.env_ok Sample.st_no_screenshot H).
Defined.

Section Drained.

Lemma Forall2_in_right {A B} (P : A -> B -> Prop) l k y :
  Forall2 P l k -> In y k -> exists x, In x l /\ P x y.
Proof.
  intros H. induction H as [|a b l k Hab H IH]; intros Hin; [contradiction|].
  destruct Hin as [Hin|Hin].
  - subst. exists a. split; [left; reflexivity | exact Hab].
  - destruct (IH Hin) as (x & Hx & Hp). exists x. split; [right; exact Hx | exact Hp].
Qed.

Lemma find_other_settings type l :
  type <> "worker" ->
  find (fun s => String.eqb (s_type s) type) (filter (fun s => negb (is_worker s)) l)
  = find (fun s => String.eqb (s_type s) type) l.
Proof.
  intros Hty. induction l as [|s l IH]; [reflexivity|]. cbn [filter find].
  unfold is_worker at 1.
  destruct (String.eqb (s_type s) "worker") eqn:Ew; cbn [negb].
  - apply String.eqb_eq in Ew.
    destruct (String.eqb (s_type s) type) eqn:E; [|exact IH].
    apply String.eqb_eq in E. congruence.
  - cbn [find]. rewrite IH. reflexivity.
Qed.

(** The rows that cycles read are the same in two states with the same
    settings other than the heartbeat. *)
Lemma lookup_other_settings type st st' :
  type <> "worker" ->
  other_settings st' = other_settings st ->
  lookup_setting type st' = lookup_setting type st.
Proof.
  intros Hty H. unfold lookup_setting.
  rewrite <- (find_other_settings type (settings st') Hty).
  rewrite <- (find_other_settings type (settings st) Hty).
  unfold other_settings in H. rewrite H. reflexivity.
Qed.

End Drained.

(** X19.  A full cycle (both settings rows present, the ids of the pending
    rows distinct) drains the queue: no row is pending when it ends, so
    that every message is sent in one cycle only; a cycle run right after
    it, whatever the environment then does, is idle and makes no send and
    no screenshot. *)
Theorem X19_full_cycle_drains_the_queue :
  forall env st bot_settings ss,
    lookup_setting "telegram:bot" st = Some bot_settings ->
    lookup_setting "tradingview:screenshot" st = Some ss ->
    NoDup (map m_id (pending_messages st)) ->
    let st' := state_of (processQueue env st) in
    pending_messages st' = [] /\
    forall env',
      outcome_of (processQueue env' st') = Ok tt /\
      dispatches (events_of (processQueue env' st')) = [] /\
      screenshot_calls (events_of (processQueue env' st')) = [].
Proof.
  intros env st bot_settings ss Hbot Hss Hnd st'.
  assert (Hdrained : pending_messages st' = []).
  { subst st'.
    destruct (processQueue_spec env st bot_settings ss Hbot Hss)
      as (st1 & evs & g & Hrun & _ & _ & _ & _ & _ & _ & _ & Hper).
    pose proof (proj1 queue_kept_by_all env st) as Hkept.
    rewrite Hrun in Hkept |- *. cbn [state_of fst snd] in Hkept |- *.
    unfold pending_messages.
    destruct (filter _ (messages st1)) as [|row rest] eqn:E; [reflexivity|].
    exfalso.
    assert (Hrow : In row (filter (fun m => status_eqb (m_status m) pending)
                             (messages st1))) by (rewrite E; left; reflexivity).
    apply filter_In in Hrow. destruct Hrow as [Hrow Hstatus].
    assert (Hpending : m_status row = pending)
      by (destruct (m_status row); [reflexivity | discriminate..]).
    destruct (Forall2_in_right _ _ _ _ Hkept Hrow) as (r & Hr & Hpay & Hback).
    assert (Hrp : In r (pending_messages st)).
    { unfold pending_messages. apply filter_In. split; [exact Hr|].
      rewrite (Hback Hpending). reflexivity. }
    destruct (Hper Hnd r Hrp) as (_ & _ & call & o & _ & Hrows).
    assert (Hid : m_id row = m_id r) by (unfold payload in Hpay; congruence).
    destruct (Hrows row Hrow Hid) as [Hs _].
    rewrite Hpending in Hs. destruct o; discriminate Hs. }
  split; [exact Hdrained|].
  intros env'.
  assert (Hbot' : lookup_setting "telegram:bot" st' = Some bot_settings).
  { rewrite <- Hbot. apply lookup_other_settings; [discriminate|].
    subst st'. exact (proj1 settings_kept_by_all env st). }
  rewrite (idle_cycle_run env' st' bot_settings Hbot' Hdrained).
  repeat split.
Qed.

(** X19 at work: the scenario of the specification, then a second cycle
    with the provider down. *)
Lemma X19_witness :
  let st := Sample.st_aapl in
  let st' := state_of (processQueue Sample.env_ok st) in
  (lookup_setting "telegram:bot" st = Some Sample.bot_row /\
   lookup_setting "tradingview:screenshot" st = Some Sample.screenshot_row /\
   NoDup (map m_id (pending_messages st))) /\
  pending_messages st' = [] /\
  forall env',
    outcome_of (processQueue env' st') = Ok tt /\
    dispatches (events_of (processQueue env' st')) = [] /\
    screenshot_calls (events_of (processQueue env' st')) = [].
Proof.
  assert (H3 : NoDup (map m_id (pending_messages Sample.st_aapl)))
    by (cbn; constructor; [intros [] | constructor]).
  split; [split; [reflexivity | split; [reflexivity | exact H3]]|].
  exact (X19_full_cycle_drains_the_queue Sample.env_ok Sample.st_aapl
           Sample.bot_row Sample.screenshot_row eq_refl eq_refl H3).
Defined.
